(** * A shallow embedding of [sale_analysis.py]

    The program is a linear batch pipeline around one [SalesAnalyzer] object:
    [load_data], [clean_data], [calculate_metrics],
    [generate_visualizations], [generate_report], run in that order by
    [main].

    Conventions of the embedding.
    - A pandas cell of a numeric column is a [Number]: [Some q] for a finite
      value [q], [None] for NaN.  Finite values are exact rationals ([Qc]),
      so every sum and mean below is the exact one; float rounding is not
      modelled.
    - A table is a list of rows; the [Month] column exists only once
      [has_Month] is set.
    - Methods mutate [self]; here they take the analyzer and return the new
      one, inside a small monad that also collects what is printed and
      written, and that stops at the first uncaught exception.
    - What pandas leaves open is a parameter of the development: the date
      parser, the index order chosen by the descending sort among equal
      values, the file system and the clock. *)

From Stdlib Require Import QArith Qcanon String Ascii List Permutation Sorted.
From Stdlib Require Import Mergesort Orders OrdersEx Lia Bool.
From stdpp Require Import base option list gmap strings.
Import ListNotations.

Local Open Scope Qc_scope.
Local Open Scope string_scope.
Local Open Scope list_scope.

(** ** Numbers *)

Abbreviation Number := (option Qc).

Definition Qc_of_nat (n : nat) : Qc := Q2Qc (inject_Z (Z.of_nat n)).

Definition isnull {A} (c : option A) : bool :=
  match c with None => true | Some _ => false end.

Fixpoint dropna {A} (xs : list (option A)) : list A :=
  match xs with
  | [] => []
  | None :: xs' => dropna xs'
  | Some x :: xs' => x :: dropna xs'
  end.

(** [Series.isnull().any()] *)
Definition isnull_any {A} (xs : list (option A)) : bool := existsb isnull xs.

(** [Series.isnull().sum()] *)
Definition isnull_sum {A} (xs : list (option A)) : nat :=
  length (List.filter isnull xs).

(** [Series.sum()], which skips NaN and is 0 on nothing. *)
Definition Series_sum (xs : list Number) : Qc :=
  fold_left Qcplus (dropna xs) 0.

(** [Series.mean()], which skips NaN and is NaN when nothing is left. *)
Definition Series_mean (xs : list Number) : Number :=
  match dropna xs with
  | [] => None
  | vs => Some (fold_left Qcplus vs 0 / Qc_of_nat (length vs))
  end.

(** [Series.fillna(value)] *)
Definition fill_cell (value : Number) (c : Number) : Number :=
  match c with
  | None => value
  | Some x => Some x
  end.

Definition fillna (value : Number) (xs : list Number) : list Number :=
  map (fill_cell value) xs.

(** Float division and multiplication as numpy does them: no exception, a
    division by zero gives a non-finite value. *)
Definition num_div (a b : Number) : Number :=
  match a, b with
  | Some x, Some y => if Qc_eq_dec y 0 then None else Some (x / y)
  | _, _ => None
  end.

Definition num_mul (a b : Number) : Number :=
  match a, b with
  | Some x, Some y => Some (x * y)
  | _, _ => None
  end.

(** ** Dates *)

Inductive MonthOfYear :=
  | Jan | Feb | Mar | Apr | May | Jun | Jul | Aug | Sep | Oct | Nov | Dec.

Definition month_number (m : MonthOfYear) : Z :=
  match m with
  | Jan => 1 | Feb => 2 | Mar => 3 | Apr => 4 | May => 5 | Jun => 6
  | Jul => 7 | Aug => 8 | Sep => 9 | Oct => 10 | Nov => 11 | Dec => 12
  end%Z.

Record Timestamp := mkTimestamp {
  ts_year : Z;
  ts_month : MonthOfYear;
  ts_day : Z
}.

(** [Timestamp.month_name()] *)
Definition month_name (t : Timestamp) : string :=
  match ts_month t with
  | Jan => "January" | Feb => "February" | Mar => "March"
  | Apr => "April" | May => "May" | Jun => "June"
  | Jul => "July" | Aug => "August" | Sep => "September"
  | Oct => "October" | Nov => "November" | Dec => "December"
  end.

Definition ts_key (t : Timestamp) : Z :=
  (ts_year t * 10000 + month_number (ts_month t) * 100 + ts_day t)%Z.

Definition ts_leb (a b : Timestamp) : bool := (ts_key a <=? ts_key b)%Z.

(** A cell of the [Date] column: the text read from the file, a parsed
    date, or a missing value. *)
Inductive DateCell :=
  | DateStr (s : string)
  | DateTime (t : Timestamp)
  | NaT.

(** ** The table *)

Record Row := mkRow {
  Date : DateCell;
  Product : option string;
  Region : option string;
  Quantity : Number;
  Price : Number;
  Total_Sales : Number;
  Month : option string
}.

Record DataFrame := mkDataFrame {
  rows : list Row;
  has_Month : bool
}.

Definition base_columns : list string :=
  ["Date"; "Product"; "Region"; "Quantity"; "Price"; "Total_Sales"].

Definition columns (d : DataFrame) : list string :=
  base_columns ++ (if has_Month d then ["Month"] else []).

(** [df.shape] *)
Definition shape (d : DataFrame) : nat * nat :=
  (length (rows d), length (columns d)).

(** The three columns named by [numeric_cols]. *)
Inductive NumericCol := col_Quantity | col_Price | col_Total_Sales.

Definition col_name (c : NumericCol) : string :=
  match c with
  | col_Quantity => "Quantity"
  | col_Price => "Price"
  | col_Total_Sales => "Total_Sales"
  end.

Definition numeric_cols : list NumericCol :=
  [col_Quantity; col_Price; col_Total_Sales].

Definition get_numeric (c : NumericCol) (r : Row) : Number :=
  match c with
  | col_Quantity => Quantity r
  | col_Price => Price r
  | col_Total_Sales => Total_Sales r
  end.

Definition set_numeric (c : NumericCol) (v : Number) (r : Row) : Row :=
  match c with
  | col_Quantity =>
      mkRow (Date r) (Product r) (Region r) v (Price r) (Total_Sales r) (Month r)
  | col_Price =>
      mkRow (Date r) (Product r) (Region r) (Quantity r) v (Total_Sales r) (Month r)
  | col_Total_Sales =>
      mkRow (Date r) (Product r) (Region r) (Quantity r) (Price r) v (Month r)
  end.

Definition set_Date (v : DateCell) (r : Row) : Row :=
  mkRow v (Product r) (Region r) (Quantity r) (Price r) (Total_Sales r) (Month r).

Definition set_Month (v : option string) (r : Row) : Row :=
  mkRow (Date r) (Product r) (Region r) (Quantity r) (Price r) (Total_Sales r) v.

(** [df[col]] for a numeric column *)
Definition column (c : NumericCol) (d : DataFrame) : list Number :=
  map (get_numeric c) (rows d).

(** Writing a whole column back, cell by cell. *)
Fixpoint assign {A} (set : A -> Row -> Row) (vals : list A) (rs : list Row)
  : list Row :=
  match vals, rs with
  | v :: vals', r :: rs' => set v r :: assign set vals' rs'
  | _, _ => []
  end.

(** ** Grouped results, metrics, charts and the report *)

(** A series indexed by labels, as a grouped sum is: label and value, in
    index order. *)
Abbreviation Series := (list (string * Qc)).

(** A value stored in the [metrics] dict. *)
Inductive MetricVal :=
  | MScalar (x : Number)
  | MLabel (s : string)
  | MSeries (s : Series).

Inductive Chart :=
  | BarPair (quantity revenue : Series)
  | Pie (values : Series)
  | Line (points : list (string * Number)).

Record Report := mkReport {
  rep_generated_on : Timestamp;
  rep_period : Timestamp * Timestamp;
  rep_records : nat;
  rep_total_revenue : Number;
  rep_avg_transaction : Number;
  rep_best_product : MetricVal;
  rep_best_product_qty : MetricVal;
  rep_regional : list (string * Qc * Number);
  rep_monthly : Series
}.

(** ** Exceptions, output and the monad of the methods *)

Inductive exn :=
  | FileNotFoundError
  | ValueError
  | KeyError (key : string)
  | AttributeError
  | TypeError
  | OSError.

Inductive result (A : Type) :=
  | Ok (a : A)
  | Raise (e : exn).
Arguments Ok {A} a.
Arguments Raise {A} e.

(** What a [print] call shows, one constructor per message of the source. *)
Inductive Msg :=
  | msg_rule
  | msg_title
  | msg_loaded (shp : nat * nat)
  | msg_columns (cols : list string)
  | msg_file_not_found (path : string)
  | msg_no_data
  | msg_cleaning_steps
  | msg_missing_values (counts : list (string * nat))
  | msg_filled (col : string) (mean_val : Number)
  | msg_cleaning_completed
  | msg_calculating
  | msg_total_sales (v : Qc)
  | msg_best_product (p : string) (q : Number)
  | msg_avg_transaction (v : Number)
  | msg_regional_header
  | msg_monthly_header
  | msg_group_line (k : string) (v : Qc)
  | msg_generating
  | msg_saved (what : string)
  | msg_report_saved
  | msg_completed
  | msg_output_files
  | msg_output_file (name : string).

Inductive Event :=
  | Print (m : Msg)
  | Makedirs (dir : string)
  | Savefig (file : string) (c : Chart)
  | Show
  | WriteFile (file : string) (r : Report).

(** A computation prints and writes as it goes and ends with a value or an
    uncaught exception. *)
Definition M (A : Type) : Type := list Event * result A.

Definition ret {A} (a : A) : M A := ([], Ok a).

Definition bind {A B} (m : M A) (f : A -> M B) : M B :=
  match m with
  | (out, Ok a) => let '(out', r) := f a in (out ++ out', r)
  | (out, Raise e) => (out, Raise e)
  end.

Definition raise {A} (e : exn) : M A := ([], Raise e).
Definition lift {A} (r : result A) : M A := ([], r).
Definition emit (e : Event) : M unit := ([e], Ok tt).
Definition print (m : Msg) : M unit := emit (Print m).

Declare Scope pipeline_scope.
Delimit Scope pipeline_scope with pipeline.
Notation "x <- c1 ;; c2" := (bind c1 (fun x => c2))
  (at level 100, c1 at next level, right associativity) : pipeline_scope.
Notation "c1 ;; c2" := (bind c1 (fun _ => c2))
  (at level 100, right associativity) : pipeline_scope.
Local Open Scope pipeline_scope.

Definition stdout {A} (m : M A) : list Event := fst m.
Definition outcome {A} (m : M A) : result A := snd m.

(** ** The analyzer object *)

Record SalesAnalyzer := mkAnalyzer {
  file_path : string;
  df : option DataFrame;
  metrics : gmap string MetricVal
}.

(** [SalesAnalyzer.__init__] *)
Definition init (path : string) : SalesAnalyzer := mkAnalyzer path None ∅.

Definition set_df (d : DataFrame) (self : SalesAnalyzer) : SalesAnalyzer :=
  mkAnalyzer (file_path self) (Some d) (metrics self).

Definition set_metric (k : string) (v : MetricVal) (self : SalesAnalyzer)
  : SalesAnalyzer :=
  mkAnalyzer (file_path self) (df self) (<[k := v]> (metrics self)).

(** ** Column operations used by the cleaner *)

(** [df.isnull().sum()]: the number of missing cells of every column. *)
Definition date_isnull (c : DateCell) : bool :=
  match c with NaT => true | _ => false end.

Definition df_isnull_sum (d : DataFrame) : list (string * nat) :=
  [ ("Date", length (List.filter date_isnull (map Date (rows d))));
    ("Product", isnull_sum (map Product (rows d)));
    ("Region", isnull_sum (map Region (rows d)));
    ("Quantity", isnull_sum (map Quantity (rows d)));
    ("Price", isnull_sum (map Price (rows d)));
    ("Total_Sales", isnull_sum (map Total_Sales (rows d))) ]
  ++ (if has_Month d then [("Month", isnull_sum (map Month (rows d)))] else []).

(** [df[col].fillna(value, inplace=True)]: the column of the table itself
    is written, as pandas does when [df[col]] is a view of the table. *)
Definition fillna_inplace (c : NumericCol) (value : Number) (d : DataFrame)
  : DataFrame :=
  mkDataFrame (assign (set_numeric c) (fillna value (column c d)) (rows d))
              (has_Month d).

(** The body of the loop over [numeric_cols]. *)
Definition fill_missing (c : NumericCol) (d : DataFrame) : M DataFrame :=
  if isnull_any (column c d) then
    let mean_val := Series_mean (column c d) in
    let d' := fillna_inplace c mean_val d in
    print (msg_filled (col_name c) mean_val) ;;
    ret d'
  else ret d.

Fixpoint fill_all (cols : list NumericCol) (d : DataFrame) : M DataFrame :=
  match cols with
  | [] => ret d
  | c :: cols' => d' <- fill_missing c d ;; fill_all cols' d'
  end.

(** [Series.dt.month_name()]: only a datetime column has [.dt]. *)
Fixpoint dt_month_name (cells : list DateCell) : result (list (option string)) :=
  match cells with
  | [] => Ok []
  | c :: cells' =>
      match c, dt_month_name cells' with
      | DateStr _, _ => Raise AttributeError
      | _, Raise e => Raise e
      | DateTime t, Ok ms => Ok (Some (month_name t) :: ms)
      | NaT, Ok ms => Ok (None :: ms)
      end
  end.

(** ** Grouping, sorting and picking the maximum *)

Module StringOrder <: TotalLeBool.
Definition t := string.
Definition leb := String.leb.
Definition leb_total : forall a b, leb a b = true \/ leb b a = true :=
  String.leb_total.
End StringOrder.

Module StringSort := Sort StringOrder.

(** The index of a grouped result: the distinct keys that are not missing,
    in ascending order ([groupby] has [sort=True] and [dropna=True] unless
    told otherwise). *)
Definition group_keys (ks : list (option string)) : list string :=
  StringSort.sort (remove_dups (dropna ks)).

Definition key_is (k : string) (c : option string) : bool :=
  match c with
  | Some k' => String.eqb k' k
  | None => false
  end.

(** [df.groupby(key)[val].sum()] *)
Definition groupby_sum (key : Row -> option string) (val : Row -> Number)
  (rs : list Row) : Series :=
  map (fun k => (k, Series_sum (map val (List.filter (fun r => key_is k (key r)) rs))))
      (group_keys (map key rs)).

(** Picking the rows at the given positions, as pandas does with the result
    of an argsort. *)
Definition take {A} (idx : list nat) (l : list A) : list A :=
  flat_map (fun i => match nth_error l i with Some x => [x] | None => [] end) idx.

(** The first entry that carries the largest value. *)
Fixpoint first_max (s : Series) : option (string * Qc) :=
  match s with
  | [] => None
  | (k, v) :: s' =>
      match first_max s' with
      | Some (k', v') => if Qclt_le_dec v v' then Some (k', v') else Some (k, v)
      | None => Some (k, v)
      end
  end.

(** [Series.idxmax()]: the label of the first largest value; an empty
    series has none. *)
Definition idxmax (s : Series) : result string :=
  match first_max s with
  | Some (k, _) => Ok k
  | None => Raise ValueError
  end.

(** [Series.max()] *)
Definition Series_max (s : Series) : Number :=
  match first_max s with
  | Some (_, v) => Some v
  | None => None
  end.

Fixpoint assoc (k : string) (s : Series) : Number :=
  match s with
  | [] => None
  | (k', v) :: s' => if String.eqb k' k then Some v else assoc k s'
  end.

(** [Series.reindex(labels)]: one entry per requested label, NaN where the
    series has no such label; refused when the series repeats a label. *)
Definition reindex (s : Series) (labels : list string)
  : result (list (string * Number)) :=
  if decide (NoDup (map fst s))
  then Ok (map (fun l => (l, assoc l s)) labels)
  else Raise ValueError.


(** Reading the [metrics] dict. *)
Definition get_metric (k : string) (m : gmap string MetricVal) : result MetricVal :=
  match m !! k with
  | Some v => Ok v
  | None => Raise (KeyError k)
  end.

Definition get_scalar (k : string) (m : gmap string MetricVal) : result Number :=
  match m !! k with
  | Some (MScalar x) => Ok x
  | Some _ => Raise TypeError
  | None => Raise (KeyError k)
  end.

Definition get_series (k : string) (m : gmap string MetricVal) : result Series :=
  match m !! k with
  | Some (MSeries s) => Ok s
  | Some _ => Raise AttributeError
  | None => Raise (KeyError k)
  end.

(** The earliest and the latest date of a datetime column, NaT skipped;
    [strftime] then fails on NaT, and text has no [strftime]. *)
Fixpoint date_fold (pick : Timestamp -> Timestamp -> Timestamp)
  (cells : list DateCell) (acc : option Timestamp) : result (option Timestamp) :=
  match cells with
  | [] => Ok acc
  | DateStr _ :: _ => Raise AttributeError
  | NaT :: cells' => date_fold pick cells' acc
  | DateTime t :: cells' =>
      date_fold pick cells' (Some (match acc with Some a => pick a t | None => t end))
  end.

Definition date_extreme (pick : Timestamp -> Timestamp -> Timestamp)
  (cells : list DateCell) : result Timestamp :=
  match date_fold pick cells None with
  | Ok (Some t) => Ok t
  | Ok None => Raise ValueError
  | Raise e => Raise e
  end.

Definition ts_min (a b : Timestamp) : Timestamp := if ts_leb a b then a else b.
Definition ts_max (a b : Timestamp) : Timestamp := if ts_leb a b then b else a.

Fixpoint print_all (ms : list Msg) : M unit :=
  match ms with
  | [] => ret tt
  | m :: ms' => print m ;; print_all ms'
  end.

(** ** What the specification describes, written from its words

    These are the reference notions the methods are compared with. *)

(** The exact sum of a list of values. *)
Definition exact_sum (vs : list Qc) : Qc := fold_right Qcplus 0 vs.


(** The values of column [val] in the records whose [key] is [k]. *)
Definition group_values (key : Row -> option string) (val : Row -> Number)
  (rs : list Row) (k : string) : list Qc :=
  dropna (map val (List.filter (fun r => key_is k (key r)) rs)).






(** ** Concrete library behaviours, used to run the pipeline on examples *)

(** A date reader for texts of the form YYYY-MM-DD. *)
Definition digit (c : ascii) : option Z :=
  let n := nat_of_ascii c in
  if (48 <=? n)%nat && (n <=? 57)%nat then Some (Z.of_nat (n - 48)) else None.

Definition number2 (a b : ascii) : option Z :=
  match digit a, digit b with
  | Some x, Some y => Some (10 * x + y)%Z
  | _, _ => None
  end.

Definition month_of_number (n : Z) : option MonthOfYear :=
  match n with
  | 1 => Some Jan | 2 => Some Feb | 3 => Some Mar | 4 => Some Apr
  | 5 => Some May | 6 => Some Jun | 7 => Some Jul | 8 => Some Aug
  | 9 => Some Sep | 10 => Some Oct | 11 => Some Nov | 12 => Some Dec
  | _ => None
  end%Z.

Definition iso_parse_datetime (s : string) : option Timestamp :=
  match list_ascii_of_string s with
  | [y1; y2; y3; y4; dash1; m1; m2; dash2; d1; d2] =>
      match number2 y1 y2, number2 y3 y4, number2 m1 m2, number2 d1 d2 with
      | Some yh, Some yl, Some m, Some d =>
          match month_of_number m with
          | Some mo =>
              if Ascii.eqb dash1 "-" && Ascii.eqb dash2 "-"
                 && (1 <=? d)%Z && (d <=? 31)%Z
              then Some (mkTimestamp (100 * yh + yl) mo d)
              else None
          | None => None
          end
      | _, _, _, _ => None
      end
  | _ => None
  end.

(** A stable descending argsort by insertion: a position goes behind every
    position whose value is at least as large. *)
Fixpoint insert_desc (vs : list Qc) (i : nat) (idx : list nat) : list nat :=
  match idx with
  | [] => [i]
  | j :: idx' =>
      if Qclt_le_dec (nth j vs 0) (nth i vs 0)
      then i :: j :: idx'
      else j :: insert_desc vs i idx'
  end.

Definition stable_argsort_desc (vs : list Qc) : list nat :=
  fold_left (fun acc i => insert_desc vs i acc) (seq 0 (length vs)) [].

(** Example tables.  [num n] is the cell holding the integer [n]. *)
Definition num (n : Z) : Number := Some (Q2Qc (inject_Z n)).

(** Four records, two products, two regions, two months, one price
    missing. *)
Definition example_table : DataFrame :=
  mkDataFrame
    [ mkRow (DateStr "2024-01-05") (Some "Laptop") (Some "North")
            (num 2) (num 100) (num 200) None;
      mkRow (DateStr "2024-01-20") (Some "Mouse") (Some "South")
            (num 5) None (num 50) None;
      mkRow (DateStr "2024-02-03") (Some "Laptop") (Some "South")
            (num 1) (num 100) (num 100) None;
      mkRow (DateStr "2024-02-14") (Some "Mouse") (Some "North")
            (num 3) (num 10) (num 30) None ]
    false.


(** Nothing missing. *)
Definition full_table : DataFrame :=
  mkDataFrame
    [ mkRow (DateStr "2024-03-01") (Some "Desk") (Some "East")
            (num 1) (num 80) (num 80) None;
      mkRow (DateStr "2024-01-15") (Some "Lamp") (Some "West")
            (num 4) (num 5) (num 20) None ]
    false.



(** A date text that is not a date. *)
Definition bad_date_table : DataFrame :=
  mkDataFrame
    [ mkRow (DateStr "2024-01-05") (Some "Pen") (Some "North")
            (num 1) (num 10) (num 10) None;
      mkRow (DateStr "soon") (Some "Pen") (Some "North")
            (num 1) (num 10) (num 10) None ]
    false.

(** A file system in which every path holds the table [d]. *)
Definition file_with (d : DataFrame) : string -> result DataFrame :=
  fun _ => Ok d.

Definition analyzer_of (d : DataFrame) : SalesAnalyzer :=
  mkAnalyzer "sales_data.csv" (Some d) ∅.

Definition example_now : Timestamp := mkTimestamp 2024 Mar 1.

Definition no_file : string -> result DataFrame :=
  fun _ => Raise FileNotFoundError.

(** What is left of a run. *)
Definition analyzer_after {A} (r : result (A * SalesAnalyzer))
  (otherwise : SalesAnalyzer) : SalesAnalyzer :=
  match r with
  | Ok (_, self) => self
  | Raise _ => otherwise
  end.

Definition table_rows (self : SalesAnalyzer) : list Row :=
  match df self with
  | Some d => rows d
  | None => []
  end.

(** The files a run has written, in the order of writing. *)
Definition files_written (out : list Event) : list string :=
  flat_map (fun e => match e with
                     | Savefig file _ => [file]
                     | WriteFile file _ => [file]
                     | _ => []
                     end) out.

(** ** Closed forms of the cleaner's effect, used in the proofs *)

(** A record after the three fills; the means are those of the table the
    cleaner received. *)
Definition filled_row (d : DataFrame) (r : Row) : Row :=
  mkRow (Date r) (Product r) (Region r)
        (fill_cell (Series_mean (column col_Quantity d)) (Quantity r))
        (fill_cell (Series_mean (column col_Price d)) (Price r))
        (fill_cell (Series_mean (column col_Total_Sales d)) (Total_Sales r))
        (Month r).

Definition month_cell (c : DateCell) : option string :=
  match c with
  | DateTime t => Some (month_name t)
  | _ => None
  end.

(** The table the cleaner leaves, given the parsed dates. *)
Definition cleaned (d : DataFrame) (dates : list DateCell) : DataFrame :=
  mkDataFrame
    (assign set_Month (map month_cell dates)
       (assign set_Date dates (map (filled_row d) (rows d))))
    true.

(** ** The methods of [SalesAnalyzer] *)

Section Pipeline.

(** [pd.read_csv]: the table in the file, or the exception it raises. *)
Variable read_csv : string -> result DataFrame.

(** How pandas reads one date text; [None] when it cannot. *)
Variable parse_datetime : string -> option Timestamp.

(** The positions in descending order of value that the sort of
    [sort_values(ascending=False)] computes.  The default sort is not a
    stable one, so nothing is fixed about equal values. *)
Variable argsort_desc : list Qc -> list nat.
Hypothesis argsort_desc_perm :
  forall vs, Permutation (argsort_desc vs) (seq 0 (length vs)).
Hypothesis argsort_desc_sorted :
  forall vs, StronglySorted (fun i j => nth j vs 0 <= nth i vs 0) (argsort_desc vs).

(** [pd.Timestamp.now()] *)
Variable now : Timestamp.

(** [pd.to_datetime(column)]: every text is parsed, and one that cannot be
    parsed raises. *)
Fixpoint to_datetime (cells : list DateCell) : result (list DateCell) :=
  match cells with
  | [] => Ok []
  | c :: cells' =>
      let parsed :=
        match c with
        | DateStr s =>
            match parse_datetime s with
            | Some t => Ok (DateTime t)
            | None => Raise ValueError
            end
        | DateTime t => Ok (DateTime t)
        | NaT => Ok NaT
        end in
      match parsed, to_datetime cells' with
      | Raise e, _ => Raise e
      | Ok _, Raise e => Raise e
      | Ok c', Ok cs => Ok (c' :: cs)
      end
  end.

(** Each parsed cell comes from the cell at the same place: a text gives
    the date it reads as, a date and a missing value stay. *)
Definition parsed_from (c c' : DateCell) : Prop :=
  match c with
  | DateStr s => exists t, parse_datetime s = Some t /\ c' = DateTime t
  | DateTime t => c' = DateTime t
  | NaT => c' = NaT
  end.

(** [Series.sort_values(ascending=False)] *)
Definition sort_values_desc (s : Series) : Series :=
  take (argsort_desc (map snd s)) s.

Definition load_data (self : SalesAnalyzer) : M (bool * SalesAnalyzer) :=
  match read_csv (file_path self) with
  | Ok d =>
      let self := set_df d self in
      print (msg_loaded (shape d)) ;;
      print (msg_columns (columns d)) ;;
      ret (true, self)
  | Raise FileNotFoundError =>
      print (msg_file_not_found (file_path self)) ;;
      ret (false, self)
  | Raise e => raise e
  end.

Definition clean_data (self : SalesAnalyzer) : M (bool * SalesAnalyzer) :=
  match df self with
  | None =>
      print msg_no_data ;;
      ret (false, self)
  | Some d =>
      print msg_cleaning_steps ;;
      print (msg_missing_values (df_isnull_sum d)) ;;
      d <- fill_all numeric_cols d ;;
      dates <- lift (to_datetime (map Date (rows d))) ;;
      let d := mkDataFrame (assign set_Date dates (rows d)) (has_Month d) in
      months <- lift (dt_month_name (map Date (rows d))) ;;
      let d := mkDataFrame (assign set_Month months (rows d)) true in
      print msg_cleaning_completed ;;
      ret (true, set_df d self)
  end.

(** [self.df[...]] when [self.df] may still be [None]. *)
Definition the_df (self : SalesAnalyzer) : M DataFrame :=
  match df self with
  | Some d => ret d
  | None => raise TypeError
  end.

Definition calculate_metrics (self : SalesAnalyzer)
  : M (gmap string MetricVal * SalesAnalyzer) :=
  print msg_calculating ;;
  d <- the_df self ;;
  let total_sales := Series_sum (column col_Total_Sales d) in
  let self := set_metric "total_sales" (MScalar (Some total_sales)) self in
  print (msg_total_sales total_sales) ;;
  let product_sales := sort_values_desc (groupby_sum Product Quantity (rows d)) in
  best_product <- lift (idxmax product_sales) ;;
  let best_product_qty := Series_max product_sales in
  let self := set_metric "best_product" (MLabel best_product) self in
  let self := set_metric "best_product_qty" (MScalar best_product_qty) self in
  print (msg_best_product best_product best_product_qty) ;;
  let avg_transaction := Series_mean (column col_Total_Sales d) in
  let self := set_metric "avg_transaction" (MScalar avg_transaction) self in
  print (msg_avg_transaction avg_transaction) ;;
  let regional_sales := sort_values_desc (groupby_sum Region Total_Sales (rows d)) in
  let self := set_metric "regional_sales" (MSeries regional_sales) self in
  print msg_regional_header ;;
  print_all (map (fun kv => msg_group_line (fst kv) (snd kv)) regional_sales) ;;
  (if has_Month d then ret tt else raise (KeyError "Month")) ;;
  let monthly_sales := groupby_sum Month Total_Sales (rows d) in
  let self := set_metric "monthly_sales" (MSeries monthly_sales) self in
  print msg_monthly_header ;;
  print_all (map (fun kv => msg_group_line (fst kv) (snd kv)) monthly_sales) ;;
  ret (metrics self, self).

Definition months_order : list string :=
  ["January"; "February"; "March"; "April"].

(** The data of the third chart: [self.metrics['monthly_sales']] reindexed
    on [months_order]. *)
Definition monthly_trend (self : SalesAnalyzer) : result (list (string * Number)) :=
  match get_series "monthly_sales" (metrics self) with
  | Ok monthly_data => reindex monthly_data months_order
  | Raise e => Raise e
  end.

(** Drawing and saving are taken to succeed; the charts are recorded with
    the data they show. *)
Definition generate_visualizations (self : SalesAnalyzer) : M unit :=
  print msg_generating ;;
  emit (Makedirs "screenshots") ;;
  d <- the_df self ;;
  let quantity := groupby_sum Product Quantity (rows d) in
  let revenue := groupby_sum Product Total_Sales (rows d) in
  let order := argsort_desc (map snd revenue) in
  emit (Savefig "screenshots/chart_product_performance.png"
          (BarPair (take order quantity) (take order revenue))) ;;
  print (msg_saved "Product Performance Chart") ;;
  let regional_data := groupby_sum Region Total_Sales (rows d) in
  emit (Savefig "screenshots/chart_regional_sales.png" (Pie regional_data)) ;;
  print (msg_saved "Regional Sales Chart") ;;
  monthly_data <- lift (monthly_trend self) ;;
  emit (Savefig "screenshots/chart_sales_trend.png" (Line monthly_data)) ;;
  print (msg_saved "Monthly Sales Trend Chart") ;;
  emit Show.

(** The lines of the regional section: region, revenue and its share of
    [metrics['total_sales']] in percent. *)
Definition regional_lines (regional_sales : Series) (total_sales : Number)
  : list (string * Qc * Number) :=
  map (fun kv =>
         let percentage :=
           num_mul (num_div (Some (snd kv)) total_sales) (Some (Qc_of_nat 100)) in
         (fst kv, snd kv, percentage))
      regional_sales.

Definition generate_report (self : SalesAnalyzer) : M Report :=
  d <- the_df self ;;
  first <- lift (date_extreme ts_min (map Date (rows d))) ;;
  last <- lift (date_extreme ts_max (map Date (rows d))) ;;
  total_sales <- lift (get_scalar "total_sales" (metrics self)) ;;
  avg_transaction <- lift (get_scalar "avg_transaction" (metrics self)) ;;
  best_product <- lift (get_metric "best_product" (metrics self)) ;;
  best_product_qty <- lift (get_metric "best_product_qty" (metrics self)) ;;
  regional_sales <- lift (get_series "regional_sales" (metrics self)) ;;
  monthly_sales <- lift (get_series "monthly_sales" (metrics self)) ;;
  let report_content :=
    mkReport now (first, last) (length (rows d)) total_sales avg_transaction
             best_product best_product_qty
             (regional_lines regional_sales total_sales) monthly_sales in
  emit (WriteFile "analysis_report.md" report_content) ;;
  print msg_report_saved ;;
  ret report_content.

Definition main : M unit :=
  print msg_rule ;;
  print msg_title ;;
  print msg_rule ;;
  let analyzer := init "sales_data.csv" in
  loaded <- load_data analyzer ;;
  let analyzer := snd loaded in
  if fst loaded then
    cleaned <- clean_data analyzer ;;
    let analyzer := snd cleaned in
    computed <- calculate_metrics analyzer ;;
    let analyzer := snd computed in
    generate_visualizations analyzer ;;
    generate_report analyzer ;;
    print msg_rule ;;
    print msg_completed ;;
    print msg_rule ;;
    print msg_output_files ;;
    print (msg_output_file "analysis_report.md") ;;
    print (msg_output_file "screenshots/") ;;
    print (msg_output_file "sales_analysis.py")
  else ret tt.

(** The dict [calculate_metrics] leaves when it returns: the six entries
    written over what was there. *)
Definition computed_metrics (d : DataFrame) (best_product : string)
  (m0 : gmap string MetricVal) : gmap string MetricVal :=
  let product_sales := sort_values_desc (groupby_sum Product Quantity (rows d)) in
  <["monthly_sales" := MSeries (groupby_sum Month Total_Sales (rows d))]>
  (<["regional_sales" :=
       MSeries (sort_values_desc (groupby_sum Region Total_Sales (rows d)))]>
  (<["avg_transaction" := MScalar (Series_mean (column col_Total_Sales d))]>
  (<["best_product_qty" := MScalar (Series_max product_sales)]>
  (<["best_product" := MLabel best_product]>
  (<["total_sales" := MScalar (Some (Series_sum (column col_Total_Sales d)))]>
     m0))))).




(** *** The aggregates taken directly on the table as loaded

    This is the other side of the comparison with clean-then-compute: the
    five aggregates of the specification over the columns as they were
    read, the month of a record being the month name of its date.  A date
    that cannot be read, or a table without any product, is fatal. *)


Definition date_readable (c : DateCell) : bool :=
  match c with
  | DateStr s => negb (isnull (parse_datetime s))
  | _ => true
  end.



(** ** The monad *)

Lemma outcome_bind {A B} (m : M A) (f : A -> M B) :
  outcome (bind m f) =
  match outcome m with
  | Ok a => outcome (f a)
  | Raise e => Raise e
  end.
Proof.
  destruct m as [out [a | e]]; simpl; [| reflexivity].
  destruct (f a); reflexivity.
Qed.

Lemma stdout_bind_Ok {A B} (m : M A) (f : A -> M B) a :
  outcome m = Ok a -> stdout (bind m f) = stdout m ++ stdout (f a).
Proof.
  destruct m as [out [a' | e]]; simpl; intros H; [| discriminate].
  injection H as ->. destruct (f a); reflexivity.
Qed.

Lemma stdout_bind_Raise {A B} (m : M A) (f : A -> M B) e :
  outcome m = Raise e -> stdout (bind m f) = stdout m.
Proof.
  destruct m as [out [a' | e']]; simpl; intros H; [discriminate | reflexivity].
Qed.

Lemma outcome_print_all ms : outcome (print_all ms) = Ok tt.
Proof.
  induction ms as [| m ms IH]; [reflexivity |].
  cbn [print_all]. rewrite outcome_bind. exact IH.
Qed.

(** ** Columns and assignment *)

Lemma assign_length {A} (set : A -> Row -> Row) vals rs :
  length vals = length rs -> length (assign set vals rs) = length rs.
Proof.
  revert rs; induction vals as [| v vals IH]; intros [| r rs] H;
    simpl in *; try discriminate; [reflexivity |].
  f_equal. apply IH. lia.
Qed.

Lemma assign_frame {A B} (set : A -> Row -> Row) (f : Row -> B) vals rs :
  (forall v r, f (set v r) = f r) ->
  length vals = length rs ->
  map f (assign set vals rs) = map f rs.
Proof.
  intros Hf. revert rs; induction vals as [| v vals IH]; intros [| r rs] H;
    simpl in *; try discriminate; [reflexivity |].
  rewrite Hf. f_equal. apply IH. lia.
Qed.

Lemma assign_read {A} (set : A -> Row -> Row) (g : Row -> A) vals rs :
  (forall v r, g (set v r) = v) ->
  length vals = length rs ->
  map g (assign set vals rs) = vals.
Proof.
  intros Hg. revert rs; induction vals as [| v vals IH]; intros [| r rs] H;
    simpl in *; try discriminate; [reflexivity |].
  rewrite Hg. f_equal. apply IH. lia.
Qed.

Lemma assign_map {A} (set : A -> Row -> Row) (f : Row -> A) rs :
  assign set (map f rs) rs = map (fun r => set (f r) r) rs.
Proof.
  induction rs as [| r rs IH]; simpl; [reflexivity |]. now rewrite IH.
Qed.

Lemma set_get_numeric c r : set_numeric c (get_numeric c r) r = r.
Proof. destruct c, r; reflexivity. Qed.

Lemma isnull_any_false (xs : list Number) :
  isnull_any xs = false -> forall x, In x xs -> fill_cell (Series_mean xs) x = x.
Proof.
  unfold isnull_any. intros H x Hx.
  destruct x as [v |]; [reflexivity |].
  assert (existsb isnull xs = true) as Ht
    by (apply existsb_exists; exists None; split; [exact Hx | reflexivity]).
  congruence.
Qed.

Lemma fillna_no_missing (xs : list Number) v :
  isnull_any xs = false -> fillna v xs = xs.
Proof.
  unfold isnull_any, fillna. induction xs as [| x xs IH]; simpl; [reflexivity |].
  destruct x as [y |]; simpl; [| discriminate].
  intros H. now rewrite IH.
Qed.

(** One pass of the loop writes the filled column and nothing else. *)
Lemma fill_missing_outcome c d :
  outcome (fill_missing c d) =
  Ok (mkDataFrame
        (map (fun r => set_numeric c
                         (fill_cell (Series_mean (column c d)) (get_numeric c r)) r)
             (rows d))
        (has_Month d)).
Proof.
  unfold fill_missing.
  destruct (isnull_any (column c d)) eqn:Hany.
  - rewrite outcome_bind. simpl. unfold fillna_inplace, fillna, column.
    rewrite List.map_map, assign_map. reflexivity.
  - simpl. f_equal. destruct d as [rs hm]. simpl. f_equal.
    unfold column in *. simpl in *.
    rewrite <- (List.map_id rs) at 1. apply List.map_ext_in.
    intros r Hr.
    rewrite (isnull_any_false _ Hany) by (now apply List.in_map).
    symmetry. apply set_get_numeric.
Qed.

Lemma fill_all_outcome d :
  outcome (fill_all numeric_cols d) =
  Ok (mkDataFrame (map (filled_row d) (rows d)) (has_Month d)).
Proof.
  unfold numeric_cols. cbn [fill_all].
  rewrite outcome_bind, fill_missing_outcome. cbv beta iota.
  rewrite outcome_bind, fill_missing_outcome. cbv beta iota.
  rewrite outcome_bind, fill_missing_outcome. cbv beta iota.
  simpl. f_equal. f_equal.
  unfold column. simpl. rewrite !List.map_map. simpl.
  apply List.map_ext. intros r. reflexivity.
Qed.

(** ** Dates *)

Lemma to_datetime_length cells dates :
  to_datetime cells = Ok dates -> length dates = length cells.
Proof.
  revert dates; induction cells as [| c cells IH]; intros dates H; simpl in H.
  - now injection H as <-.
  - destruct (to_datetime cells) as [cs | e].
    + destruct c as [s | t |]; [destruct (parse_datetime s) |..];
        try discriminate; injection H as <-; simpl; f_equal; now apply IH.
    + destruct c as [s | t |]; [destruct (parse_datetime s) |..]; discriminate.
Qed.

Lemma to_datetime_cells cells dates :
  to_datetime cells = Ok dates -> Forall2 parsed_from cells dates.
Proof.
  revert dates; induction cells as [| c cells IH]; intros dates H; simpl in H.
  - injection H as <-. constructor.
  - destruct (to_datetime cells) as [cs | e].
    + destruct c as [s | t |]; [destruct (parse_datetime s) eqn:Hs |..];
        try discriminate; injection H as <-; constructor; auto; simpl; eauto.
    + destruct c as [s | t |]; [destruct (parse_datetime s) |..]; discriminate.
Qed.

Lemma to_datetime_month_name cells dates :
  to_datetime cells = Ok dates ->
  dt_month_name dates = Ok (map month_cell dates).
Proof.
  intros H. apply to_datetime_cells in H.
  induction H as [| c c' cells dates Hc _ IH]; [reflexivity |].
  simpl. rewrite IH.
  destruct c as [s | t |]; simpl in Hc.
  - destruct Hc as (t & _ & ->). reflexivity.
  - subst. reflexivity.
  - subst. reflexivity.
Qed.

(** ** The cleaner *)

Lemma clean_data_outcome self d dates :
  df self = Some d ->
  to_datetime (map Date (rows d)) = Ok dates ->
  outcome (clean_data self) = Ok (true, set_df (cleaned d dates) self).
Proof.
  intros Hdf Hdates. unfold clean_data. rewrite Hdf.
  rewrite outcome_bind. cbn [outcome print emit snd].
  rewrite outcome_bind. cbn [outcome print emit snd].
  rewrite outcome_bind, fill_all_outcome. cbv beta iota.
  cbn [rows has_Month].
  rewrite outcome_bind. unfold lift at 1. cbn [outcome snd].
  rewrite List.map_map. cbn [filled_row Date].
  change (map (fun x : Row => Date x) (rows d)) with (map Date (rows d)).
  rewrite Hdates.
  assert (length dates = length (map (filled_row d) (rows d))) as Hlen
    by (rewrite (to_datetime_length _ _ Hdates), !length_map; reflexivity).
  rewrite outcome_bind. unfold lift at 1. cbn [outcome snd].
  rewrite (assign_read set_Date Date) by (auto; intros ? []; reflexivity).
  rewrite (to_datetime_month_name _ _ Hdates).
  rewrite outcome_bind. cbn [outcome print emit snd].
  reflexivity.
Qed.

Lemma clean_data_raises self d e :
  df self = Some d ->
  to_datetime (map Date (rows d)) = Raise e ->
  outcome (clean_data self) = Raise e.
Proof.
  intros Hdf Hdates. unfold clean_data. rewrite Hdf.
  rewrite outcome_bind. cbn [outcome print emit snd].
  rewrite outcome_bind. cbn [outcome print emit snd].
  rewrite outcome_bind, fill_all_outcome. cbv beta iota.
  cbn [rows has_Month].
  rewrite outcome_bind. unfold lift at 1. cbn [outcome snd].
  rewrite List.map_map. cbn [filled_row Date].
  change (map (fun x : Row => Date x) (rows d)) with (map Date (rows d)).
  rewrite Hdates. reflexivity.
Qed.

Lemma cleaned_length d dates :
  length dates = length (rows d) ->
  length (rows (cleaned d dates)) = length (rows d).
Proof.
  intros H. unfold cleaned. cbn [rows].
  assert (length (assign set_Date dates (map (filled_row d) (rows d)))
          = length (rows d)) as Hd
    by (rewrite assign_length; rewrite ?length_map; auto).
  rewrite assign_length; rewrite ?length_map; congruence.
Qed.

(** What a cleaned table keeps of a column that neither date step touches. *)
Lemma cleaned_column {B} (f : Row -> B) d dates :
  (forall v r, f (set_Month v r) = f r) ->
  (forall v r, f (set_Date v r) = f r) ->
  length dates = length (rows d) ->
  map f (rows (cleaned d dates)) = map (fun r => f (filled_row d r)) (rows d).
Proof.
  intros HM HD H. unfold cleaned. cbn [rows].
  rewrite (assign_frame set_Month f) by
    (auto; rewrite assign_length; rewrite ?length_map; auto).
  rewrite (assign_frame set_Date f) by (auto; rewrite ?length_map; auto).
  apply List.map_map.
Qed.

Lemma get_numeric_filled_row c d r :
  get_numeric c (filled_row d r)
  = fill_cell (Series_mean (column c d)) (get_numeric c r).
Proof. destruct c; reflexivity. Qed.

Lemma cleaned_numeric c d dates :
  length dates = length (rows d) ->
  column c (cleaned d dates) = fillna (Series_mean (column c d)) (column c d).
Proof.
  intros H. unfold column at 1.
  rewrite (cleaned_column (get_numeric c)); auto;
    try (intros ? []; destruct c; reflexivity).
  unfold fillna, column. rewrite List.map_map.
  apply List.map_ext. intros r. apply get_numeric_filled_row.
Qed.

Lemma fold_left_Qcplus vs a : fold_left Qcplus vs a = a + exact_sum vs.
Proof.
  revert a; induction vs as [| v vs IH]; intros a; simpl.
  - ring.
  - rewrite IH. ring.
Qed.

Lemma Series_sum_exact xs : Series_sum xs = exact_sum (dropna xs).
Proof. unfold Series_sum. rewrite fold_left_Qcplus. ring. Qed.


Lemma clean_data_no_df_outcome self :
  df self = None -> outcome (clean_data self) = Ok (false, self).
Proof. intros H. unfold clean_data. rewrite H. reflexivity. Qed.

(** C9: when no table is loaded, [clean_data] prints its complaint, returns
    false and hands back the analyzer exactly as it was. *)
Theorem clean_data_without_table self :
  df self = None ->
  clean_data self = ([Print msg_no_data], Ok (false, self)).
Proof.
  intros H. unfold clean_data. rewrite H. reflexivity.
Qed.


(** C10: a cleaning run that returns keeps the number of records and the
    Product and Region columns, changes a numeric cell only where it was
    missing, puts the parsed dates in the Date column and adds the Month
    column with the month names of those dates; path and metrics of the
    analyzer stay. *)
Theorem clean_data_frame self d dates :
  df self = Some d ->
  to_datetime (map Date (rows d)) = Ok dates ->
  exists d',
    outcome (clean_data self) = Ok (true, set_df d' self) /\
    length (rows d') = length (rows d) /\
    map Product (rows d') = map Product (rows d) /\
    map Region (rows d') = map Region (rows d) /\
    (forall c, Forall2 (fun old new => isnull old = false -> new = old)
                       (column c d) (column c d')) /\
    map Date (rows d') = dates /\
    Forall2 parsed_from (map Date (rows d)) dates /\
    columns d' = base_columns ++ ["Month"] /\
    map Month (rows d') = map month_cell dates.
Proof.
  intros Hdf Hdates. exists (cleaned d dates).
  assert (length dates = length (rows d)) as Hlen
    by (rewrite (to_datetime_length _ _ Hdates); apply length_map).
  assert (length (assign set_Date dates (map (filled_row d) (rows d)))
          = length (rows d)) as Hd
    by (rewrite assign_length; rewrite ?length_map; auto).
  split; [now apply clean_data_outcome |].
  split; [now apply cleaned_length |].
  split; [rewrite (cleaned_column Product); auto; intros ? []; reflexivity |].
  split; [rewrite (cleaned_column Region); auto; intros ? []; reflexivity |].
  split.
  { intros c. rewrite (cleaned_numeric c d dates Hlen).
    unfold fillna. generalize (Series_mean (column c d)). intros mv.
    induction (column c d) as [| x xs IH]; simpl; constructor; auto.
    destruct x; simpl; intros; [reflexivity | discriminate]. }
  split.
  { unfold cleaned. cbn [rows].
    rewrite (assign_frame set_Month Date).
    - apply (assign_read set_Date Date); rewrite ?length_map; auto.
    - intros ? []; reflexivity.
    - rewrite length_map. congruence. }
  split; [now apply to_datetime_cells |].
  split; [reflexivity |].
  unfold cleaned. cbn [rows].
  apply (assign_read set_Month Month); rewrite ?length_map; try congruence.
  intros ? []; reflexivity.
Qed.

(** ** Grouping *)

Lemma In_dropna {A} (x : A) xs : In x (dropna xs) <-> In (Some x) xs.
Proof.
  induction xs as [| [y |] xs IH]; simpl.
  - tauto.
  - rewrite IH. split; intros [H | H]; auto; left; congruence.
  - rewrite IH. split; [auto | intros [H | H]; [discriminate | auto]].
Qed.

Lemma group_keys_In k ks : In k (group_keys ks) <-> In (Some k) ks.
Proof.
  unfold group_keys. rewrite <- In_dropna.
  transitivity (In k (remove_dups (dropna ks))).
  - split; apply Permutation_in; [symmetry |]; apply StringSort.Permuted_sort.
  - rewrite <- !list_elem_of_In. apply elem_of_remove_dups.
Qed.

Lemma group_keys_NoDup ks : NoDup (group_keys ks).
Proof.
  unfold group_keys.
  rewrite <- (StringSort.Permuted_sort _). apply NoDup_remove_dups.
Qed.


Lemma groupby_sum_keys key val rs :
  map fst (groupby_sum key val rs) = group_keys (map key rs).
Proof.
  unfold groupby_sum. rewrite List.map_map. simpl. apply List.map_id.
Qed.

Lemma key_is_true k c : key_is k c = true <-> c = Some k.
Proof.
  destruct c as [k' |]; simpl.
  - rewrite String.eqb_eq. split; congruence.
  - split; discriminate.
Qed.

(** An entry of a grouped sum: its label is the key of some record, and its
    value is the exact sum of the group's values. *)
Lemma groupby_sum_In key val rs k v :
  In (k, v) (groupby_sum key val rs) <->
  (exists r, In r rs /\ key r = Some k) /\
  v = exact_sum (group_values key val rs k).
Proof.
  unfold groupby_sum, group_values. rewrite in_map_iff. split.
  - intros (k' & Heq & Hin). injection Heq as -> <-.
    apply group_keys_In, in_map_iff in Hin. destruct Hin as (r & Hr & Hin).
    split; [eauto |]. apply Series_sum_exact.
  - intros ((r & Hin & Hr) & ->). exists k. split.
    + f_equal. apply Series_sum_exact.
    + apply group_keys_In, in_map_iff. eauto.
Qed.


Lemma groupby_sum_assoc_None key val rs k :
  (forall r, In r rs -> key r <> Some k) ->
  assoc k (groupby_sum key val rs) = None.
Proof.
  intros Hk.
  assert (~ In k (group_keys (map key rs))) as Hin.
  { rewrite group_keys_In, in_map_iff. intros (r & Hr & Hi). now apply (Hk r). }
  unfold groupby_sum.
  induction (group_keys (map key rs)) as [| k' ks IH]; [reflexivity |].
  simpl. destruct (String.eqb_spec k' k) as [-> | Hne].
  - exfalso. apply Hin. now left.
  - apply IH. intros H. apply Hin. now right.
Qed.

(** ** Picking rows by position *)

Lemma take_seq {A} (pre l : list A) :
  take (seq (length pre) (length l)) (pre ++ l) = l.
Proof.
  revert pre; induction l as [| x l IH]; intros pre; [reflexivity |].
  unfold take in *. simpl.
  rewrite nth_error_app2, Nat.sub_diag by lia. simpl. f_equal.
  specialize (IH (pre ++ [x])).
  rewrite length_app, <- app_assoc in IH. simpl in IH.
  rewrite Nat.add_1_r in IH. exact IH.
Qed.

Lemma take_Permutation {A} idx (l : list A) :
  Permutation idx (seq 0 (length l)) -> Permutation (take idx l) l.
Proof.
  intros H. unfold take. rewrite H.
  change (Permutation (take (seq (length (@nil A)) (length l)) ([] ++ l)) l).
  now rewrite take_seq.
Qed.

Lemma sort_values_desc_Permutation s : Permutation (sort_values_desc s) s.
Proof using argsort_desc_perm.
  apply take_Permutation. rewrite argsort_desc_perm, length_map. reflexivity.
Qed.

Lemma take_nth {A} (d : A) idx (l : list A) :
  Forall (fun i => (i < length l)%nat) idx ->
  take idx l = map (fun i => nth i l d) idx.
Proof.
  unfold take. induction 1 as [| i idx Hi _ IH]; simpl; [reflexivity |].
  rewrite IH. destruct (nth_error l i) as [x |] eqn:Hx.
  - now rewrite (nth_error_nth _ _ d Hx).
  - apply nth_error_None in Hx. lia.
Qed.

(** The sorted series is in descending order of value. *)
Lemma sort_values_desc_sorted s :
  StronglySorted (fun a b => snd b <= snd a) (sort_values_desc s).
Proof using argsort_desc_perm argsort_desc_sorted.
  unfold sort_values_desc.
  rewrite (take_nth (EmptyString, 0)).
  - pose proof (argsort_desc_sorted (map snd s)) as Hs.
    induction Hs as [| i idx _ IH Hi]; simpl; constructor; [exact IH |].
    rewrite List.Forall_forall in *. intros x Hx.
    apply in_map_iff in Hx as (j & <- & Hj).
    specialize (Hi j Hj). cbv beta in Hi.
    change 0 with (snd (EmptyString, 0)) in Hi.
    now rewrite !List.map_nth in Hi.
  - rewrite (argsort_desc_perm (map snd s)), length_map.
    apply List.Forall_forall. intros i Hi. now apply in_seq in Hi.
Qed.

(** ** The first maximum *)

Lemma first_max_In s k v : first_max s = Some (k, v) -> In (k, v) s.
Proof.
  revert k v; induction s as [| [k0 v0] s IH]; intros k v H; [discriminate |].
  simpl in H. destruct (first_max s) as [[k' v'] |].
  - destruct (Qclt_le_dec v0 v'); injection H as <- <-; [right | left]; auto.
  - injection H as <- <-. now left.
Qed.

Lemma first_max_ge s k v :
  first_max s = Some (k, v) -> forall k' v', In (k', v') s -> v' <= v.
Proof.
  revert k v; induction s as [| [k0 v0] s IH]; intros k v H k' v' Hin;
    [destruct Hin |].
  simpl in H. destruct (first_max s) as [[k1 v1] |] eqn:Hs.
  - destruct (Qclt_le_dec v0 v1) as [Hlt | Hle]; injection H as <- <-.
    + destruct Hin as [Heq | Hin].
      * injection Heq as <- <-. now apply Qclt_le_weak.
      * eapply IH; eauto.
    + destruct Hin as [Heq | Hin].
      * injection Heq as <- <-. apply Qcle_refl.
      * eapply Qcle_trans; [eapply IH; eauto | exact Hle].
  - injection H as <- <-. destruct s as [| [k2 v2] s].
    + destruct Hin as [Heq | []]. injection Heq as <- <-. apply Qcle_refl.
    + simpl in Hs. destruct (first_max s) as [[? ?] |];
        [destruct (Qclt_le_dec v2 _) |]; discriminate.
Qed.

Lemma first_max_nonempty s : s <> [] -> exists k v, first_max s = Some (k, v).
Proof.
  destruct s as [| [k0 v0] s]; [congruence |]. intros _. simpl.
  destruct (first_max s) as [[k' v'] |]; [destruct (Qclt_le_dec v0 v') |]; eauto.
Qed.

(** ** The metrics calculator *)

Lemma calculate_metrics_outcome self :
  outcome (calculate_metrics self) =
  match df self with
  | None => Raise TypeError
  | Some d =>
      match idxmax (sort_values_desc (groupby_sum Product Quantity (rows d))) with
      | Raise e => Raise e
      | Ok p =>
          if has_Month d
          then Ok (computed_metrics d p (metrics self),
                   mkAnalyzer (file_path self) (Some d)
                              (computed_metrics d p (metrics self)))
          else Raise (KeyError "Month")
      end
  end.
Proof.
  unfold calculate_metrics, the_df.
  rewrite outcome_bind. cbn [outcome print emit snd].
  rewrite outcome_bind.
  destruct self as [path [d |] m0]; cbn [df outcome ret raise snd]; [| reflexivity].
  rewrite outcome_bind. cbn [outcome print emit snd].
  rewrite outcome_bind. unfold lift at 1. cbn [outcome snd].
  destruct (idxmax _) as [p | e]; [| reflexivity].
  rewrite outcome_bind. cbn [outcome print emit snd].
  rewrite outcome_bind. cbn [outcome print emit snd].
  rewrite outcome_bind. cbn [outcome print emit snd].
  rewrite outcome_bind, outcome_print_all.
  rewrite outcome_bind.
  destruct (has_Month d); cbn [outcome ret raise snd]; [| reflexivity].
  rewrite outcome_bind. cbn [outcome print emit snd].
  rewrite outcome_bind, outcome_print_all.
  reflexivity.
Qed.

Lemma computed_metrics_total_sales d p m0 :
  computed_metrics d p m0 !! "total_sales"
  = Some (MScalar (Some (Series_sum (column col_Total_Sales d)))).
Proof. unfold computed_metrics. now repeat (rewrite lookup_insert_ne by done); rewrite lookup_insert_eq. Qed.

Lemma computed_metrics_best_product d p m0 :
  computed_metrics d p m0 !! "best_product" = Some (MLabel p).
Proof. unfold computed_metrics. now repeat (rewrite lookup_insert_ne by done); rewrite lookup_insert_eq. Qed.

Lemma computed_metrics_best_product_qty d p m0 :
  computed_metrics d p m0 !! "best_product_qty"
  = Some (MScalar (Series_max
       (sort_values_desc (groupby_sum Product Quantity (rows d))))).
Proof. unfold computed_metrics. now repeat (rewrite lookup_insert_ne by done); rewrite lookup_insert_eq. Qed.

Lemma computed_metrics_regional_sales d p m0 :
  computed_metrics d p m0 !! "regional_sales"
  = Some (MSeries (sort_values_desc (groupby_sum Region Total_Sales (rows d)))).
Proof. unfold computed_metrics. now repeat (rewrite lookup_insert_ne by done); rewrite lookup_insert_eq. Qed.

Lemma computed_metrics_monthly_sales d p m0 :
  computed_metrics d p m0 !! "monthly_sales"
  = Some (MSeries (groupby_sum Month Total_Sales (rows d))).
Proof. unfold computed_metrics. now rewrite lookup_insert_eq. Qed.

(** What a returning [clean_data] call with result true has done. *)
Lemma clean_data_inv self0 self :
  outcome (clean_data self0) = Ok (true, self) ->
  exists d0 dates,
    df self0 = Some d0 /\
    to_datetime (map Date (rows d0)) = Ok dates /\
    self = set_df (cleaned d0 dates) self0.
Proof.
  intros H. destruct (df self0) as [d0 |] eqn:Hdf.
  - destruct (to_datetime (map Date (rows d0))) as [dates | e] eqn:Hd.
    + rewrite (clean_data_outcome _ _ _ Hdf Hd) in H. injection H as <-. eauto.
    + rewrite (clean_data_raises _ _ _ Hdf Hd) in H. discriminate.
  - rewrite (clean_data_no_df_outcome _ Hdf) in H. discriminate.
Qed.

(** What a returning [calculate_metrics] call has done. *)
Lemma calculate_metrics_inv self m self' :
  outcome (calculate_metrics self) = Ok (m, self') ->
  exists d p,
    df self = Some d /\ has_Month d = true /\
    idxmax (sort_values_desc (groupby_sum Product Quantity (rows d))) = Ok p /\
    m = computed_metrics d p (metrics self) /\
    self' = mkAnalyzer (file_path self) (Some d) m.
Proof.
  rewrite calculate_metrics_outcome. intros H.
  destruct (df self) as [d |]; [| discriminate].
  destruct (idxmax _) as [p | e] eqn:Hp; [| discriminate].
  destruct (has_Month d) eqn:Hm; [| discriminate].
  injection H as <- <-. exists d, p. auto.
Qed.



(** The best product of a table with at least one product: a group of the
    grouping by product whose summed quantity no other group exceeds. *)
Lemma idxmax_product_sales rs :
  (exists r, In r rs /\ isnull (Product r) = false) ->
  exists p q,
    first_max (sort_values_desc (groupby_sum Product Quantity rs)) = Some (p, q) /\
    (exists r, In r rs /\ Product r = Some p) /\
    q = exact_sum (group_values Product Quantity rs p) /\
    (forall r p', In r rs -> Product r = Some p' ->
        exact_sum (group_values Product Quantity rs p') <= q).
Proof using argsort_desc_perm.
  intros (r0 & Hr0 & Hp0).
  destruct (Product r0) as [p0 |] eqn:Hp0'; [clear Hp0 | discriminate].
  set (g := groupby_sum Product Quantity rs).
  assert (In (p0, exact_sum (group_values Product Quantity rs p0)) g) as Hg
    by (apply groupby_sum_In; eauto).
  pose proof (sort_values_desc_Permutation g) as Hperm.
  destruct (first_max_nonempty (sort_values_desc g)) as (p & q & Hmax).
  { intros Hnil. rewrite Hnil in Hperm. apply Permutation_nil in Hperm.
    rewrite Hperm in Hg. destruct Hg. }
  exists p, q. split; [exact Hmax |].
  pose proof (first_max_In _ _ _ Hmax) as Hin.
  apply (Permutation_in _ Hperm), groupby_sum_In in Hin as [Hex Hq].
  split; [exact Hex |]. split; [exact Hq |].
  intros r p' Hr Hp'. eapply (first_max_ge _ _ _ Hmax p').
  apply (Permutation_in _ (Permutation_sym Hperm)), groupby_sum_In. eauto.
Qed.



(** ** The monthly trend chart *)




Lemma reindex_groupby_sum key val rs labels :
  reindex (groupby_sum key val rs) labels
  = Ok (map (fun l => (l, assoc l (groupby_sum key val rs))) labels).
Proof.
  unfold reindex. rewrite groupby_sum_keys.
  destruct (decide (NoDup (group_keys (map key rs)))) as [| Hn]; [reflexivity |].
  destruct Hn. apply group_keys_NoDup.
Qed.

Lemma generate_visualizations_trace self d pts :
  df self = Some d ->
  monthly_trend self = Ok pts ->
  generate_visualizations self =
  ([ Print msg_generating;
     Makedirs "screenshots";
     Savefig "screenshots/chart_product_performance.png"
       (let order :=
          argsort_desc (map snd (groupby_sum Product Total_Sales (rows d))) in
        BarPair (take order (groupby_sum Product Quantity (rows d)))
                (take order (groupby_sum Product Total_Sales (rows d))));
     Print (msg_saved "Product Performance Chart");
     Savefig "screenshots/chart_regional_sales.png"
       (Pie (groupby_sum Region Total_Sales (rows d)));
     Print (msg_saved "Regional Sales Chart");
     Savefig "screenshots/chart_sales_trend.png" (Line pts);
     Print (msg_saved "Monthly Sales Trend Chart");
     Show ],
   Ok tt).
Proof.
  intros Hdf Hpts. unfold generate_visualizations, the_df.
  rewrite Hdf, Hpts. reflexivity.
Qed.


(** ** Regional shares *)












(** ** Clean-then-compute against the direct aggregates *)




Lemma to_datetime_readable cells :
  match to_datetime cells with
  | Ok _ => forallb date_readable cells = true
  | Raise e => e = ValueError /\ forallb date_readable cells = false
  end.
Proof.
  induction cells as [| c cells IH]; simpl; [reflexivity |].
  destruct (to_datetime cells) as [cs | e].
  - destruct c as [s | t |]; simpl; [destruct (parse_datetime s) |..];
      simpl; auto.
  - destruct IH as [-> IH]. rewrite IH.
    destruct c as [s | t |]; simpl; [destruct (parse_datetime s) |..];
      simpl; auto using andb_false_r.
Qed.




(** ** Loading, and [main] when the file is missing *)

(** C8: [load_data] returns true exactly when the file was read, and then
    holds the table and has printed its shape and columns; it returns
    false exactly when the file is not found, and then has printed only
    that and changed nothing; any other failure of the read is not caught.
    When the file is not found, [main] prints its banner and the complaint
    and ends normally, no other stage having run. *)
Theorem load_data_and_missing_file :
  (forall self d, read_csv (file_path self) = Ok d ->
     load_data self
     = ([Print (msg_loaded (shape d)); Print (msg_columns (columns d))],
        Ok (true, set_df d self))) /\
  (forall self, read_csv (file_path self) = Raise FileNotFoundError ->
     load_data self
     = ([Print (msg_file_not_found (file_path self))], Ok (false, self))) /\
  (forall self e, read_csv (file_path self) = Raise e ->
     e <> FileNotFoundError -> load_data self = ([], Raise e)) /\
  (forall self self', outcome (load_data self) = Ok (true, self') ->
     exists d, read_csv (file_path self) = Ok d) /\
  (forall self self', outcome (load_data self) = Ok (false, self') ->
     read_csv (file_path self) = Raise FileNotFoundError) /\
  (read_csv "sales_data.csv" = Raise FileNotFoundError ->
     main = ([Print msg_rule; Print msg_title; Print msg_rule;
              Print (msg_file_not_found "sales_data.csv")],
             Ok tt)).
Proof.
  repeat split.
  - intros self d H. unfold load_data. rewrite H. reflexivity.
  - intros self H. unfold load_data. rewrite H. reflexivity.
  - intros self e H He. unfold load_data. rewrite H.
    destruct e; try reflexivity. congruence.
  - intros self self' H. unfold load_data in H.
    destruct (read_csv (file_path self)) as [d | e]; [eauto |].
    destruct e; discriminate.
  - intros self self' H. unfold load_data in H.
    destruct (read_csv (file_path self)) as [d | e]; [discriminate |].
    destruct e; try discriminate. reflexivity.
  - intros H. unfold main, load_data, init. cbn [file_path].
    rewrite H. reflexivity.
Qed.

(** ** More on the cleaner *)

Lemma cleaned_Date d dates :
  length dates = length (rows d) ->
  map Date (rows (cleaned d dates)) = dates.
Proof.
  intros Hlen. unfold cleaned. cbn [rows].
  assert (length (assign set_Date dates (map (filled_row d) (rows d)))
          = length (rows d)) as Hd
    by (rewrite assign_length; rewrite ?length_map; auto).
  rewrite (assign_frame set_Month Date).
  - apply (assign_read set_Date Date); rewrite ?length_map; auto.
  - intros ? []; reflexivity.
  - rewrite length_map. congruence.
Qed.

Lemma cleaned_Month d dates :
  length dates = length (rows d) ->
  map Month (rows (cleaned d dates)) = map month_cell dates.
Proof.
  intros Hlen. unfold cleaned. cbn [rows].
  apply (assign_read set_Month Month); [intros ? []; reflexivity |].
  rewrite length_map, assign_length; rewrite ?length_map; auto.
Qed.

(** Parsed cells are dates or missing values, which parsing leaves alone. *)
Lemma to_datetime_again cells dates :
  to_datetime cells = Ok dates -> to_datetime dates = Ok dates.
Proof.
  intros H. apply to_datetime_cells in H.
  induction H as [| c c' cells dates Hc _ IH]; [reflexivity |].
  simpl. rewrite IH.
  destruct c as [s | t |]; simpl in Hc.
  - destruct Hc as (t & _ & ->). reflexivity.
  - subst. reflexivity.
  - subst. reflexivity.
Qed.

Lemma isnull_any_fillna_Some m xs : isnull_any (fillna (Some m) xs) = false.
Proof.
  unfold isnull_any, fillna.
  induction xs as [| [x |] xs IH]; simpl; auto.
Qed.

Lemma dropna_nil_all_missing (xs : list Number) :
  dropna xs = [] -> forall x, In x xs -> x = None.
Proof.
  induction xs as [| [x |] xs IH]; simpl; intros H y Hy.
  - destruct Hy.
  - discriminate.
  - destruct Hy as [<- | Hy]; auto.
Qed.

Lemma fillna_None xs : fillna None xs = xs.
Proof.
  unfold fillna. rewrite <- (List.map_id xs) at 2.
  apply List.map_ext. now intros [x |].
Qed.


(** Filling is settled after one pass: a second fill changes nothing. *)
Lemma fillna_mean_twice xs :
  let ys := fillna (Series_mean xs) xs in
  fillna (Series_mean ys) ys = ys.
Proof.
  cbv zeta. destruct (Series_mean xs) as [m |] eqn:Hm.
  - apply fillna_no_missing, isnull_any_fillna_Some.
  - rewrite fillna_None, Hm. apply fillna_None.
Qed.

Lemma rows_ext (l l' : list Row) :
  map Date l = map Date l' ->
  map Product l = map Product l' ->
  map Region l = map Region l' ->
  map Quantity l = map Quantity l' ->
  map Price l = map Price l' ->
  map Total_Sales l = map Total_Sales l' ->
  map Month l = map Month l' ->
  l = l'.
Proof.
  revert l'; induction l as [| r l IH]; intros [| r' l'] H1 H2 H3 H4 H5 H6 H7;
    simpl in *; try discriminate; [reflexivity |].
  injection H1 as ? ?. injection H2 as ? ?. injection H3 as ? ?.
  injection H4 as ? ?. injection H5 as ? ?. injection H6 as ? ?.
  injection H7 as ? ?.
  f_equal; [destruct r, r'; simpl in *; congruence | now apply IH].
Qed.

Lemma cleaned_twice d dates :
  length dates = length (rows d) ->
  cleaned (cleaned d dates) dates = cleaned d dates.
Proof.
  intros Hlen.
  assert (length dates = length (rows (cleaned d dates))) as Hlen'
    by (now rewrite cleaned_length).
  assert (forall c, column c (cleaned (cleaned d dates) dates)
                    = column c (cleaned d dates)) as Hnum.
  { intros c. rewrite (cleaned_numeric c (cleaned d dates)) by assumption.
    rewrite (cleaned_numeric c d) by assumption. apply fillna_mean_twice. }
  change (mkDataFrame (rows (cleaned (cleaned d dates) dates)) true
          = mkDataFrame (rows (cleaned d dates)) true).
  f_equal. apply rows_ext.
  - now rewrite !cleaned_Date.
  - rewrite (cleaned_column Product); auto; intros ? []; reflexivity.
  - rewrite (cleaned_column Region); auto; intros ? []; reflexivity.
  - exact (Hnum col_Quantity).
  - exact (Hnum col_Price).
  - exact (Hnum col_Total_Sales).
  - now rewrite !cleaned_Month.
Qed.

(** X1: with a table loaded, [clean_data] returns True when every date
    text can be read, and raises ValueError as soon as one cannot. *)
Theorem clean_data_needs_readable_dates self d :
  df self = Some d ->
  (forallb date_readable (map Date (rows d)) = true ->
     exists d', outcome (clean_data self) = Ok (true, set_df d' self)) /\
  (forallb date_readable (map Date (rows d)) = false ->
     outcome (clean_data self) = Raise ValueError).
Proof.
  intros Hdf.
  pose proof (to_datetime_readable (map Date (rows d))) as Hread.
  destruct (to_datetime (map Date (rows d))) as [dates | e] eqn:Hdates.
  - split; [| congruence].
    intros _. exists (cleaned d dates). now apply clean_data_outcome.
  - destruct Hread as [-> Hread]. split; [congruence |].
    intros _. now apply (clean_data_raises self d).
Qed.

(** X2: cleaning is idempotent: a second [clean_data] on the analyzer that
    a first one returned returns that same analyzer. *)
Theorem clean_data_idempotent self self1 :
  outcome (clean_data self) = Ok (true, self1) ->
  outcome (clean_data self1) = Ok (true, self1).
Proof.
  intros H. apply clean_data_inv in H as (d & dates & Hdf & Hdates & ->).
  assert (length dates = length (rows d)) as Hlen
    by (rewrite (to_datetime_length _ _ Hdates); apply length_map).
  rewrite (clean_data_outcome (set_df (cleaned d dates) self)
             (cleaned d dates) dates eq_refl).
  - rewrite cleaned_twice by assumption. reflexivity.
  - rewrite cleaned_Date by assumption. now apply (to_datetime_again _ _ Hdates).
Qed.









(** ** More on the metrics calculator *)

Lemma computed_metrics_avg_transaction d p m0 :
  computed_metrics d p m0 !! "avg_transaction"
  = Some (MScalar (Series_mean (column col_Total_Sales d))).
Proof.
  unfold computed_metrics.
  now repeat (rewrite lookup_insert_ne by done); rewrite lookup_insert_eq.
Qed.

Lemma computed_metrics_other d p m0 k :
  ~ In k ["total_sales"; "best_product"; "best_product_qty";
          "avg_transaction"; "regional_sales"; "monthly_sales"] ->
  computed_metrics d p m0 !! k = m0 !! k.
Proof.
  intros Hk. unfold computed_metrics.
  repeat (rewrite lookup_insert_ne
            by (intros <-; apply Hk; simpl;
                repeat first [left; reflexivity | right])).
  reflexivity.
Qed.

Lemma groupby_sum_no_key key val rs :
  (forall r, In r rs -> key r = None) -> groupby_sum key val rs = [].
Proof.
  intros Hnone.
  destruct (groupby_sum key val rs) as [| [k v] s] eqn:Hg; [reflexivity |].
  assert (In (k, v) (groupby_sum key val rs)) as Hin by (rewrite Hg; now left).
  apply groupby_sum_In in Hin as [(r & Hr & Hk) _].
  rewrite (Hnone r Hr) in Hk. discriminate.
Qed.

Lemma idxmax_no_product rs :
  (forall r, In r rs -> Product r = None) ->
  idxmax (sort_values_desc (groupby_sum Product Quantity rs)) = Raise ValueError.
Proof using argsort_desc_perm.
  intros Hnone.
  pose proof (sort_values_desc_Permutation (groupby_sum Product Quantity rs)) as Hp.
  rewrite (groupby_sum_no_key _ _ _ Hnone) in Hp.
  apply Permutation_sym, Permutation_nil in Hp.
  rewrite (groupby_sum_no_key _ _ _ Hnone), Hp. reflexivity.
Qed.

(** Every record lacks a product, or one names one. *)
Lemma product_somewhere rs :
  (forall r, In r rs -> Product r = None) \/
  (exists r, In r rs /\ isnull (Product r) = false).
Proof.
  induction rs as [| r rs [IH | (r' & Hr' & Hp)]].
  - left. intros r [].
  - destruct (Product r) as [p |] eqn:Hp.
    + right. exists r. split; [now left | now rewrite Hp].
    + left. intros r' [<- | Hr']; auto.
  - right. exists r'. split; [now right | assumption].
Qed.

(** X5: [calculate_metrics] returns exactly when a table is loaded, one of
    its records names a product and it has the Month column.  Without a
    table it raises TypeError; with a table none of whose records names a
    product (an empty table is one) it raises ValueError; with products
    but no Month column, that is before cleaning, it raises KeyError on
    Month. *)
Theorem calculate_metrics_returns_iff self :
  match df self with
  | None => outcome (calculate_metrics self) = Raise TypeError
  | Some d =>
      ((forall r, In r (rows d) -> Product r = None) ->
         outcome (calculate_metrics self) = Raise ValueError) /\
      ((exists r, In r (rows d) /\ isnull (Product r) = false) ->
         has_Month d = false ->
         outcome (calculate_metrics self) = Raise (KeyError "Month")) /\
      ((exists r, In r (rows d) /\ isnull (Product r) = false) ->
         has_Month d = true ->
         exists m self', outcome (calculate_metrics self) = Ok (m, self'))
  end.
Proof using argsort_desc_perm.
  rewrite calculate_metrics_outcome.
  destruct (df self) as [d |]; [| reflexivity].
  split; [| split].
  - intros Hnone. now rewrite (idxmax_no_product _ Hnone).
  - intros Hp HM.
    destruct (idxmax_product_sales _ Hp) as (p & q & Hmax & _).
    unfold idxmax. now rewrite Hmax, HM.
  - intros Hp HM.
    destruct (idxmax_product_sales _ Hp) as (p & q & Hmax & _).
    unfold idxmax. rewrite Hmax, HM. eauto.
Qed.

(** X6: a returning [calculate_metrics] hands back the dict it stored,
    keeps the path and the table of the analyzer, and leaves every entry
    of [metrics] other than its six keys as it was. *)
Theorem calculate_metrics_frame self m self' :
  outcome (calculate_metrics self) = Ok (m, self') ->
  metrics self' = m /\
  file_path self' = file_path self /\
  df self' = df self /\
  (forall k,
     ~ In k ["total_sales"; "best_product"; "best_product_qty";
             "avg_transaction"; "regional_sales"; "monthly_sales"] ->
     m !! k = metrics self !! k).
Proof.
  intros H. apply calculate_metrics_inv in H as (d & p & Hdf & _ & _ & -> & ->).
  repeat split; auto. intros k Hk. now apply computed_metrics_other.
Qed.





(** ** More on drawing, the report and [main] *)

Lemma take_map {A B} (f : A -> B) idx (l : list A) :
  take idx (map f l) = map f (take idx l).
Proof.
  unfold take. induction idx as [| i idx IH]; [reflexivity |].
  simpl. rewrite IH, List.map_app, nth_error_map.
  now destruct (nth_error l i).
Qed.

Lemma generate_visualizations_trace_raise self d e :
  df self = Some d ->
  monthly_trend self = Raise e ->
  generate_visualizations self =
  ([ Print msg_generating;
     Makedirs "screenshots";
     Savefig "screenshots/chart_product_performance.png"
       (let order :=
          argsort_desc (map snd (groupby_sum Product Total_Sales (rows d))) in
        BarPair (take order (groupby_sum Product Quantity (rows d)))
                (take order (groupby_sum Product Total_Sales (rows d))));
     Print (msg_saved "Product Performance Chart");
     Savefig "screenshots/chart_regional_sales.png"
       (Pie (groupby_sum Region Total_Sales (rows d)));
     Print (msg_saved "Regional Sales Chart") ],
   Raise e).
Proof.
  intros Hdf Hpts. unfold generate_visualizations, the_df.
  rewrite Hdf, Hpts. reflexivity.
Qed.

(** X11: the two panels of the product chart line up: whatever
    [generate_visualizations] saves as the product chart shows the same
    products in the same order in both panels, each product of the table
    once, with its summed quantity and its summed revenue, by descending
    revenue. *)
Theorem product_chart_panels_line_up self d quantity revenue :
  df self = Some d ->
  In (Savefig "screenshots/chart_product_performance.png"
        (BarPair quantity revenue))
     (stdout (generate_visualizations self)) ->
  map fst quantity = map fst revenue /\
  Permutation quantity (groupby_sum Product Quantity (rows d)) /\
  Permutation revenue (groupby_sum Product Total_Sales (rows d)) /\
  StronglySorted (fun a b => snd b <= snd a) revenue.
Proof using argsort_desc_perm argsort_desc_sorted.
  intros Hdf Hin.
  set (qty := groupby_sum Product Quantity (rows d)) in *.
  set (rev := groupby_sum Product Total_Sales (rows d)) in *.
  assert (quantity = take (argsort_desc (map snd rev)) qty /\
          revenue = take (argsort_desc (map snd rev)) rev) as [-> ->].
  { destruct (monthly_trend self) as [pts | e] eqn:Hpts.
    - rewrite (generate_visualizations_trace self d pts Hdf Hpts) in Hin.
      cbn [stdout fst] in Hin. simpl in Hin.
      repeat (destruct Hin as [Hin | Hin]; try discriminate).
      + injection Hin as <- <-. auto.
      + destruct Hin.
    - rewrite (generate_visualizations_trace_raise self d e Hdf Hpts) in Hin.
      cbn [stdout fst] in Hin. simpl in Hin.
      repeat (destruct Hin as [Hin | Hin]; try discriminate).
      + injection Hin as <- <-. auto.
      + destruct Hin. }
  assert (Permutation (argsort_desc (map snd rev)) (seq 0 (length qty))) as Hq.
  { rewrite argsort_desc_perm, length_map.
    rewrite <- (length_map fst rev), <- (length_map fst qty).
    unfold rev, qty. now rewrite !groupby_sum_keys. }
  split.
  { rewrite <- !take_map. unfold rev, qty. now rewrite !groupby_sum_keys. }
  split; [now apply take_Permutation |].
  split; [apply (sort_values_desc_Permutation rev) |].
  apply (sort_values_desc_sorted rev).
Qed.


Lemma generate_report_trace self rep :
  outcome (generate_report self) = Ok rep ->
  stdout (generate_report self)
  = [WriteFile "analysis_report.md" rep; Print msg_report_saved].
Proof.
  unfold generate_report, the_df, lift.
  destruct (df self) as [d |]; [| discriminate].
  cbn [bind ret].
  destruct (date_extreme ts_min _) as [first |]; [| discriminate].
  destruct (date_extreme ts_max _) as [last |]; [| discriminate].
  destruct (get_scalar "total_sales" _) as [total |]; [| discriminate].
  destruct (get_scalar "avg_transaction" _) as [avg |]; [| discriminate].
  destruct (get_metric "best_product" _) as [best |]; [| discriminate].
  destruct (get_metric "best_product_qty" _) as [qty |]; [| discriminate].
  destruct (get_series "regional_sales" _) as [regional |]; [| discriminate].
  destruct (get_series "monthly_sales" _) as [monthly |]; [| discriminate].
  cbn [outcome stdout fst snd emit print]. intros H. now injection H as <-.
Qed.

(** X13: [generate_report] writes all or nothing: when it returns a report
    it has written that very report to analysis_report.md and nothing
    else, and when it raises it has written and printed nothing. *)
Theorem generate_report_all_or_nothing self :
  match outcome (generate_report self) with
  | Ok rep =>
      stdout (generate_report self)
      = [WriteFile "analysis_report.md" rep; Print msg_report_saved]
  | Raise _ => stdout (generate_report self) = []
  end.
Proof.
  unfold generate_report, the_df, lift.
  destruct (df self) as [d |]; [| reflexivity].
  cbn [bind ret].
  destruct (date_extreme ts_min _) as [first |]; [| reflexivity].
  destruct (date_extreme ts_max _) as [last |]; [| reflexivity].
  destruct (get_scalar "total_sales" _) as [total |]; [| reflexivity].
  destruct (get_scalar "avg_transaction" _) as [avg |]; [| reflexivity].
  destruct (get_metric "best_product" _) as [best |]; [| reflexivity].
  destruct (get_metric "best_product_qty" _) as [qty |]; [| reflexivity].
  destruct (get_series "regional_sales" _) as [regional |]; [| reflexivity].
  destruct (get_series "monthly_sales" _) as [monthly |]; [| reflexivity].
  reflexivity.
Qed.


Lemma files_written_app out out' :
  files_written (out ++ out') = files_written out ++ files_written out'.
Proof. apply flat_map_app. Qed.

Lemma files_written_bind {A B} (m : M A) (f : A -> M B) :
  files_written (stdout (bind m f))
  = files_written (stdout m)
    ++ match outcome m with
       | Ok a => files_written (stdout (f a))
       | Raise _ => []
       end.
Proof.
  destruct m as [out [a | e]]; simpl.
  - destruct (f a) as [out' r]. simpl. apply files_written_app.
  - symmetry. apply app_nil_r.
Qed.

Lemma print_all_writes_nothing ms : files_written (stdout (print_all ms)) = [].
Proof.
  induction ms as [| m ms IH]; [reflexivity |].
  cbn [print_all]. rewrite files_written_bind. exact IH.
Qed.

Lemma fill_all_writes_nothing cols d :
  files_written (stdout (fill_all cols d)) = [].
Proof.
  revert d; induction cols as [| c cols IH]; intros d; [reflexivity |].
  cbn [fill_all]. rewrite files_written_bind, fill_missing_outcome, IH.
  unfold fill_missing. now destruct (isnull_any (column c d)).
Qed.

Lemma clean_data_writes_nothing self :
  files_written (stdout (clean_data self)) = [].
Proof.
  unfold clean_data. destruct (df self) as [d |]; [| reflexivity].
  rewrite files_written_bind. cbn [outcome stdout print emit fst snd].
  rewrite files_written_bind. cbn [outcome stdout print emit fst snd].
  rewrite files_written_bind, fill_all_writes_nothing, fill_all_outcome.
  rewrite files_written_bind. unfold lift at 1 2. cbn [outcome stdout fst snd].
  destruct (to_datetime _) as [dates |]; [| reflexivity].
  rewrite files_written_bind. unfold lift at 1 2. cbn [outcome stdout fst snd].
  destruct (dt_month_name _) as [months |]; [| reflexivity].
  reflexivity.
Qed.

Lemma calculate_metrics_writes_nothing self :
  files_written (stdout (calculate_metrics self)) = [].
Proof.
  unfold calculate_metrics, the_df.
  rewrite files_written_bind. cbn [outcome stdout print emit fst snd].
  rewrite files_written_bind.
  destruct (df self) as [d |]; cbn [outcome stdout ret raise fst snd];
    [| reflexivity].
  rewrite files_written_bind. cbn [outcome stdout print emit fst snd].
  rewrite files_written_bind. unfold lift at 1 2. cbn [outcome stdout fst snd].
  destruct (idxmax _) as [p |]; [| reflexivity].
  rewrite files_written_bind. cbn [outcome stdout print emit fst snd].
  rewrite files_written_bind. cbn [outcome stdout print emit fst snd].
  rewrite files_written_bind. cbn [outcome stdout print emit fst snd].
  rewrite files_written_bind, print_all_writes_nothing, outcome_print_all.
  rewrite files_written_bind.
  destruct (has_Month d); cbn [outcome stdout ret raise fst snd];
    [| reflexivity].
  rewrite files_written_bind. cbn [outcome stdout print emit fst snd].
  rewrite files_written_bind, print_all_writes_nothing, outcome_print_all.
  reflexivity.
Qed.

(** A date column without text has a first and a last date as soon as it
    has a date. *)
Lemma date_fold_parsed pick cells acc :
  (forall s, ~ In (DateStr s) cells) ->
  exists o, date_fold pick cells acc = Ok o /\
            (acc <> None \/ (exists t, In (DateTime t) cells) -> o <> None).
Proof.
  revert acc; induction cells as [| c cells IH]; intros acc Hno.
  - exists acc. split; [reflexivity |].
    intros [H | (t & [])]. exact H.
  - assert (forall s, ~ In (DateStr s) cells) as Hno'
      by (intros s Hs; apply (Hno s); now right).
    destruct c as [s | t |]; simpl.
    + exfalso. apply (Hno s). now left.
    + destruct (IH (Some (match acc with Some a => pick a t | None => t end)) Hno')
        as (o & Ho & Hsome).
      exists o. split; [exact Ho |]. intros _. apply Hsome. left. discriminate.
    + destruct (IH acc Hno') as (o & Ho & Hsome).
      exists o. split; [exact Ho |].
      intros [H | (t & [H | H])]; [auto | discriminate | eauto].
Qed.

Lemma date_extreme_parsed pick cells :
  (forall s, ~ In (DateStr s) cells) ->
  (exists t, In (DateTime t) cells) ->
  exists t, date_extreme pick cells = Ok t.
Proof.
  intros Hno Hsome. unfold date_extreme.
  destruct (date_fold_parsed pick cells None Hno) as (o & -> & Ho).
  destruct o as [t |]; [eauto |]. exfalso. apply Ho; auto.
Qed.

Lemma parsed_no_text cells dates :
  Forall2 parsed_from cells dates -> forall s, ~ In (DateStr s) dates.
Proof.
  induction 1 as [| c c' cells dates Hc _ IH]; intros s Hin;
    [destruct Hin |].
  destruct Hin as [H | H]; [| exact (IH s H)].
  subst c'. destruct c as [s' | t |]; simpl in Hc.
  - destruct Hc as (t & _ & Hc). discriminate.
  - discriminate.
  - discriminate.
Qed.

Lemma parsed_some_date cells dates :
  Forall2 parsed_from cells dates ->
  (exists c, In c cells /\ c <> NaT) ->
  exists t, In (DateTime t) dates.
Proof.
  induction 1 as [| c c' cells dates Hc _ IH]; intros (c0 & Hin & Hc0);
    [destruct Hin |].
  destruct Hin as [<- | Hin].
  - destruct c as [s | t |]; simpl in Hc.
    + destruct Hc as (t & _ & ->). exists t. now left.
    + subst. exists t. now left.
    + congruence.
  - destruct IH as (t & Ht); [eauto |]. exists t. now right.
Qed.

(** Once the metrics are computed on a table with a date, the report is
    produced. *)
Lemma generate_report_after_metrics path d p m0 :
  (forall s, ~ In (DateStr s) (map Date (rows d))) ->
  (exists t, In (DateTime t) (map Date (rows d))) ->
  exists rep,
    outcome (generate_report
               (mkAnalyzer path (Some d) (computed_metrics d p m0))) = Ok rep.
Proof.
  intros Hno Hsome.
  destruct (date_extreme_parsed ts_min _ Hno Hsome) as (first & Hfirst).
  destruct (date_extreme_parsed ts_max _ Hno Hsome) as (last & Hlast).
  unfold generate_report, the_df, lift, get_scalar, get_metric, get_series.
  cbn [df metrics bind ret]. rewrite Hfirst, Hlast.
  rewrite computed_metrics_total_sales, computed_metrics_avg_transaction,
    computed_metrics_best_product, computed_metrics_best_product_qty,
    computed_metrics_regional_sales, computed_metrics_monthly_sales.
  eexists. reflexivity.
Qed.

Lemma main_load d :
  read_csv "sales_data.csv" = Ok d ->
  load_data (init "sales_data.csv")
  = ([Print (msg_loaded (shape d)); Print (msg_columns (columns d))],
     Ok (true, set_df d (init "sales_data.csv"))).
Proof.
  intros H. unfold load_data, init. cbn [file_path]. rewrite H. reflexivity.
Qed.

(** X14: on a file that loads, whose date texts can all be read, with at
    least one date and at least one product in it, [main] runs to its end
    and has written the three charts and then the report, in that order,
    and no other file. *)
Theorem main_on_a_good_file d :
  read_csv "sales_data.csv" = Ok d ->
  forallb date_readable (map Date (rows d)) = true ->
  (exists r, In r (rows d) /\ isnull (Product r) = false) ->
  (exists r, In r (rows d) /\ Date r <> NaT) ->
  outcome main = Ok tt /\
  files_written (stdout main)
  = ["screenshots/chart_product_performance.png";
     "screenshots/chart_regional_sales.png";
     "screenshots/chart_sales_trend.png";
     "analysis_report.md"].
Proof using argsort_desc_perm.
  intros Hread Hreadable Hprod Hdate.
  pose proof (main_load d Hread) as Hload.
  set (a0 := init "sales_data.csv") in *.
  pose proof (to_datetime_readable (map Date (rows d))) as Hr.
  destruct (to_datetime (map Date (rows d))) as [dates | e] eqn:Hdates;
    [clear Hr | destruct Hr; congruence].
  assert (length dates = length (rows d)) as Hlen
    by (rewrite (to_datetime_length _ _ Hdates); apply length_map).
  pose proof (clean_data_outcome (set_df d a0) d dates eq_refl Hdates) as Hclean.
  set (dc := cleaned d dates) in *.
  assert (exists r, In r (rows dc) /\ isnull (Product r) = false) as Hprod'.
  { destruct Hprod as (r & Hin & Hp).
    destruct (Product r) as [p |] eqn:Hpr; [| discriminate].
    assert (In (Some p) (map Product (rows dc))) as Hin'.
    { unfold dc. rewrite (cleaned_column Product); auto;
        try (intros ? []; reflexivity).
      apply in_map_iff. exists r. auto. }
    apply in_map_iff in Hin' as (r' & Hp' & Hin').
    exists r'. split; [assumption | now rewrite Hp']. }
  destruct (idxmax_product_sales _ Hprod') as (p & q & Hmax & _).
  set (M := computed_metrics dc p ∅).
  set (a3 := mkAnalyzer "sales_data.csv" (Some dc) M).
  assert (outcome (calculate_metrics (set_df dc (set_df d a0))) = Ok (M, a3))
    as Hcalc.
  { rewrite calculate_metrics_outcome. cbn [df set_df]. unfold idxmax.
    rewrite Hmax. reflexivity. }
  assert (exists pts, monthly_trend a3 = Ok pts) as (pts & Hpts).
  { eexists. unfold monthly_trend, get_series, a3, M. cbn [metrics].
    rewrite computed_metrics_monthly_sales. apply reindex_groupby_sum. }
  pose proof (generate_visualizations_trace a3 dc pts eq_refl Hpts) as Hvis.
  assert (exists rep, outcome (generate_report a3) = Ok rep) as (rep & Hrep).
  { apply generate_report_after_metrics; unfold dc; rewrite cleaned_Date by assumption.
    - exact (parsed_no_text _ _ (to_datetime_cells _ _ Hdates)).
    - apply (parsed_some_date _ _ (to_datetime_cells _ _ Hdates)).
      destruct Hdate as (r & Hin & Hr). exists (Date r). split; [| assumption].
      apply in_map_iff. eauto. }
  pose proof (generate_report_trace a3 rep Hrep) as Hrepw.
  unfold main. fold a0. split.
  - rewrite outcome_bind. cbn [outcome print emit snd].
    rewrite outcome_bind. cbn [outcome print emit snd].
    rewrite outcome_bind. cbn [outcome print emit snd].
    rewrite outcome_bind, Hload. cbn [outcome fst snd].
    rewrite outcome_bind, Hclean. cbn [snd].
    rewrite outcome_bind, Hcalc. cbn [snd].
    rewrite outcome_bind, Hvis. cbn [outcome snd].
    rewrite outcome_bind, Hrep.
    repeat (rewrite outcome_bind; cbn [outcome print emit snd]).
    reflexivity.
  - rewrite files_written_bind. cbn [outcome stdout print emit fst snd].
    rewrite files_written_bind. cbn [outcome stdout print emit fst snd].
    rewrite files_written_bind. cbn [outcome stdout print emit fst snd].
    rewrite files_written_bind, Hload. cbn [outcome stdout fst snd].
    rewrite files_written_bind, Hclean, clean_data_writes_nothing. cbn [snd].
    rewrite files_written_bind, Hcalc, calculate_metrics_writes_nothing. cbn [snd].
    rewrite files_written_bind, Hvis. cbn [outcome stdout fst snd].
    rewrite files_written_bind, Hrep, Hrepw.
    repeat (rewrite files_written_bind; cbn [outcome stdout print emit fst snd]).
    reflexivity.
Qed.

(** X15: on a file that loads but holds a date text that cannot be read,
    [main] stops with ValueError in the cleaner and no file has been
    written. *)
Theorem main_on_an_unreadable_date d :
  read_csv "sales_data.csv" = Ok d ->
  forallb date_readable (map Date (rows d)) = false ->
  outcome main = Raise ValueError /\ files_written (stdout main) = [].
Proof.
  intros Hread Hreadable.
  pose proof (main_load d Hread) as Hload.
  set (a0 := init "sales_data.csv") in *.
  pose proof (to_datetime_readable (map Date (rows d))) as Hr.
  destruct (to_datetime (map Date (rows d))) as [dates | e] eqn:Hdates;
    [congruence | destruct Hr as [-> _]].
  pose proof (clean_data_raises (set_df d a0) d _ eq_refl Hdates) as Hclean.
  unfold main. fold a0. split.
  - rewrite outcome_bind. cbn [outcome print emit snd].
    rewrite outcome_bind. cbn [outcome print emit snd].
    rewrite outcome_bind. cbn [outcome print emit snd].
    rewrite outcome_bind, Hload. cbn [outcome fst snd].
    rewrite outcome_bind, Hclean. reflexivity.
  - rewrite files_written_bind. cbn [outcome stdout print emit fst snd].
    rewrite files_written_bind. cbn [outcome stdout print emit fst snd].
    rewrite files_written_bind. cbn [outcome stdout print emit fst snd].
    rewrite files_written_bind, Hload. cbn [outcome stdout fst snd].
    rewrite files_written_bind, Hclean, clean_data_writes_nothing. reflexivity.
Qed.

Lemma generate_report_fields self rep :
  outcome (generate_report self) = Ok rep ->
  exists d regional,
    df self = Some d /\
    get_scalar "total_sales" (metrics self) = Ok (rep_total_revenue rep) /\
    get_scalar "avg_transaction" (metrics self) = Ok (rep_avg_transaction rep) /\
    get_metric "best_product" (metrics self) = Ok (rep_best_product rep) /\
    get_metric "best_product_qty" (metrics self) = Ok (rep_best_product_qty rep) /\
    get_series "regional_sales" (metrics self) = Ok regional /\
    get_series "monthly_sales" (metrics self) = Ok (rep_monthly rep) /\
    rep_regional rep = regional_lines regional (rep_total_revenue rep) /\
    rep_records rep = length (rows d) /\
    rep_generated_on rep = now.
Proof.
  unfold generate_report, the_df, lift.
  destruct (df self) as [d |]; [| discriminate].
  cbn [bind ret].
  destruct (date_extreme ts_min _) as [first |]; [| discriminate].
  destruct (date_extreme ts_max _) as [last |]; [| discriminate].
  destruct (get_scalar "total_sales" _) as [total |]; [| discriminate].
  destruct (get_scalar "avg_transaction" _) as [avg |]; [| discriminate].
  destruct (get_metric "best_product" _) as [best |]; [| discriminate].
  destruct (get_metric "best_product_qty" _) as [qty |]; [| discriminate].
  destruct (get_series "regional_sales" _) as [regional |]; [| discriminate].
  destruct (get_series "monthly_sales" _) as [monthly |]; [| discriminate].
  cbn [outcome snd emit print]. intros H. injection H as <-.
  exists d, regional. cbn. repeat split; reflexivity.
Qed.

Lemma regional_lines_labels s total :
  map (fun l => (fst (fst l), snd (fst l))) (regional_lines s total) = s.
Proof.
  unfold regional_lines. rewrite List.map_map. cbn [fst snd].
  rewrite <- (List.map_id s) at 2. apply List.map_ext. now intros [k v].
Qed.

(** X16: the report carries the metrics: a report produced after
    [calculate_metrics] holds the stored total revenue, average
    transaction, best product and its quantity, lists the regions and the
    months of the stored series in their order with their values, counts
    the records of the table and is stamped with the current time. *)
Theorem report_carries_the_metrics self m self' rep :
  outcome (calculate_metrics self) = Ok (m, self') ->
  outcome (generate_report self') = Ok rep ->
  m !! "total_sales" = Some (MScalar (rep_total_revenue rep)) /\
  m !! "avg_transaction" = Some (MScalar (rep_avg_transaction rep)) /\
  m !! "best_product" = Some (rep_best_product rep) /\
  m !! "best_product_qty" = Some (rep_best_product_qty rep) /\
  m !! "regional_sales"
  = Some (MSeries (map (fun l => (fst (fst l), snd (fst l))) (rep_regional rep))) /\
  m !! "monthly_sales" = Some (MSeries (rep_monthly rep)) /\
  rep_records rep = length (table_rows self) /\
  rep_generated_on rep = now.
Proof.
  intros Hcalc Hrep.
  apply calculate_metrics_inv in Hcalc as (d & p & Hdf & _ & _ & -> & ->).
  apply generate_report_fields in Hrep
    as (d' & regional & Hdf' & Ht & Ha & Hb & Hq & Hr & Hm & Hl & Hn & Hnow).
  cbn [df metrics] in *. injection Hdf' as <-.
  unfold get_scalar, get_metric, get_series in *.
  rewrite computed_metrics_total_sales in *.
  rewrite computed_metrics_avg_transaction in *.
  rewrite computed_metrics_best_product in *.
  rewrite computed_metrics_best_product_qty in *.
  rewrite computed_metrics_regional_sales in *.
  rewrite computed_metrics_monthly_sales in *.
  injection Ht as Ht. injection Ha as Ha. injection Hb as Hb.
  injection Hq as Hq. injection Hr as Hr. injection Hm as Hm.
  rewrite Hl, regional_lines_labels.
  unfold table_rows. rewrite Hdf.
  repeat split; congruence.
Qed.

End Pipeline.

(** ** The concrete sort is an argsort *)

Lemma insert_desc_Permutation vs i idx :
  Permutation (insert_desc vs i idx) (i :: idx).
Proof.
  induction idx as [| j idx IH]; simpl; [reflexivity |].
  destruct (Qclt_le_dec _ _); [reflexivity |].
  rewrite IH. apply perm_swap.
Qed.

Lemma insert_desc_sorted vs i idx :
  StronglySorted (fun a b => nth b vs 0 <= nth a vs 0) idx ->
  StronglySorted (fun a b => nth b vs 0 <= nth a vs 0) (insert_desc vs i idx).
Proof.
  induction 1 as [| j idx Hs IH Hj]; simpl.
  - repeat constructor.
  - destruct (Qclt_le_dec (nth j vs 0) (nth i vs 0)) as [Hlt | Hle].
    + constructor; [now constructor |].
      constructor; [now apply Qclt_le_weak |].
      rewrite List.Forall_forall in *. intros k Hk.
      eapply Qcle_trans; [apply (Hj k Hk) | now apply Qclt_le_weak].
    + constructor; [exact IH |].
      rewrite (insert_desc_Permutation vs i idx). now constructor.
Qed.

Lemma stable_argsort_desc_sorted vs :
  StronglySorted (fun i j => nth j vs 0 <= nth i vs 0) (stable_argsort_desc vs).
Proof.
  unfold stable_argsort_desc.
  assert (StronglySorted (fun i j => nth j vs 0 <= nth i vs 0) []) as Hacc
    by constructor.
  revert Hacc. generalize (@nil nat) as acc. generalize (seq 0 (length vs)) as l.
  induction l as [| i l IH]; intros acc Hacc; simpl; [exact Hacc |].
  apply IH. now apply insert_desc_sorted.
Qed.

Lemma stable_argsort_desc_perm vs :
  Permutation (stable_argsort_desc vs) (seq 0 (length vs)).
Proof.
  unfold stable_argsort_desc.
  rewrite <- (app_nil_r (seq 0 (length vs))) at 2.
  generalize (@nil nat) as acc. generalize (seq 0 (length vs)) as l.
  induction l as [| i l IH]; intros acc; simpl; [reflexivity |].
  rewrite IH, insert_desc_Permutation. symmetry. apply Permutation_middle.
Qed.

(** ** The theorems at work on the example tables *)

Ltac run := vm_compute; reflexivity.

Lemma clean_data_without_table_witness :
  df (init "sales_data.csv") = None /\
  clean_data iso_parse_datetime (init "sales_data.csv")
  = ([Print msg_no_data], Ok (false, init "sales_data.csv")).
Proof.
  split; [reflexivity |].
  apply (clean_data_without_table iso_parse_datetime (init "sales_data.csv")).
  reflexivity.
Defined.


Lemma clean_data_frame_witness :
  let self := analyzer_of example_table in
  let dates := [ DateTime (mkTimestamp 2024 Jan 5);
                 DateTime (mkTimestamp 2024 Jan 20);
                 DateTime (mkTimestamp 2024 Feb 3);
                 DateTime (mkTimestamp 2024 Feb 14) ] in
  df self = Some example_table /\
  to_datetime iso_parse_datetime (map Date (rows example_table)) = Ok dates /\
  exists d',
    outcome (clean_data iso_parse_datetime self) = Ok (true, set_df d' self) /\
    length (rows d') = 4%nat /\
    map Product (rows d') = [Some "Laptop"; Some "Mouse"; Some "Laptop"; Some "Mouse"] /\
    map Region (rows d') = [Some "North"; Some "South"; Some "South"; Some "North"] /\
    map Date (rows d') = dates /\
    columns d' = ["Date"; "Product"; "Region"; "Quantity"; "Price"; "Total_Sales"; "Month"] /\
    map Month (rows d')
    = [Some "January"; Some "January"; Some "February"; Some "February"].
Proof.
  intros self dates.
  split; [reflexivity |]. split; [reflexivity |].
  destruct (clean_data_frame iso_parse_datetime self example_table dates
              eq_refl eq_refl)
    as (d' & Hrun & Hlen & Hp & Hr & _ & Hd & _ & Hc & Hm).
  exists d'. repeat split; assumption.
Defined.







Lemma load_data_and_missing_file_witness :
  no_file "sales_data.csv" = Raise FileNotFoundError /\
  main no_file iso_parse_datetime stable_argsort_desc example_now
  = ([Print msg_rule; Print msg_title; Print msg_rule;
      Print (msg_file_not_found "sales_data.csv")],
     Ok tt).
Proof.
  split; [reflexivity |].
  apply (load_data_and_missing_file no_file iso_parse_datetime
           stable_argsort_desc example_now).
  reflexivity.
Defined.

(** ** Where the code departs from the specification *)




(** ** The further theorems at work on the example tables *)

Lemma clean_data_needs_readable_dates_witness :
  df (analyzer_of bad_date_table) = Some bad_date_table /\
  forallb (date_readable iso_parse_datetime) (map Date (rows bad_date_table))
  = false /\
  outcome (clean_data iso_parse_datetime (analyzer_of bad_date_table))
  = Raise ValueError.
Proof.
  split; [reflexivity |]. split; [reflexivity |].
  destruct (clean_data_needs_readable_dates iso_parse_datetime
              (analyzer_of bad_date_table) bad_date_table eq_refl) as [_ H].
  apply H. reflexivity.
Defined.

Lemma clean_data_idempotent_witness :
  let self := analyzer_of example_table in
  let self1 := analyzer_after (outcome (clean_data iso_parse_datetime self)) self in
  outcome (clean_data iso_parse_datetime self) = Ok (true, self1) /\
  outcome (clean_data iso_parse_datetime self1) = Ok (true, self1).
Proof.
  intros self self1.
  assert (outcome (clean_data iso_parse_datetime self) = Ok (true, self1)) as H
    by run.
  split; [exact H |].
  exact (clean_data_idempotent iso_parse_datetime self self1 H).
Defined.



(** Computing on a table that was not cleaned stops on the Month column. *)
Lemma calculate_metrics_returns_iff_witness :
  (exists r, In r (rows full_table) /\ isnull (Product r) = false) /\
  has_Month full_table = false /\
  outcome (calculate_metrics stable_argsort_desc (analyzer_of full_table))
  = Raise (KeyError "Month").
Proof.
  assert (exists r, In r (rows full_table) /\ isnull (Product r) = false) as Hp
    by (eexists; split; [left; reflexivity | reflexivity]).
  split; [exact Hp |]. split; [reflexivity |].
  destruct (calculate_metrics_returns_iff stable_argsort_desc
              stable_argsort_desc_perm (analyzer_of full_table)) as (_ & H & _).
  apply H; [exact Hp | reflexivity].
Defined.

Lemma calculate_metrics_frame_witness :
  let self0 := analyzer_of example_table in
  let self := analyzer_after (outcome (clean_data iso_parse_datetime self0)) self0 in
  let r := outcome (calculate_metrics stable_argsort_desc self) in
  let self' := analyzer_after r self in
  r = Ok (metrics self', self') /\
  file_path self' = file_path self /\
  df self' = df self /\
  metrics self' !! "other" = metrics self !! "other".
Proof.
  intros self0 self r self'.
  assert (r = Ok (metrics self', self')) as H by run.
  split; [exact H |].
  destruct (calculate_metrics_frame stable_argsort_desc self (metrics self') self' H)
    as (_ & Hp & Hd & Hk).
  split; [exact Hp |]. split; [exact Hd |].
  apply Hk. simpl. intros Hin.
  repeat (destruct Hin as [Hin | Hin]; [discriminate |]). exact Hin.
Defined.





Lemma product_chart_panels_line_up_witness :
  let self := analyzer_of example_table in
  let qty := groupby_sum Product Quantity (rows example_table) in
  let rev := groupby_sum Product Total_Sales (rows example_table) in
  let order := stable_argsort_desc (map snd rev) in
  df self = Some example_table /\
  In (Savefig "screenshots/chart_product_performance.png"
        (BarPair (take order qty) (take order rev)))
     (stdout (generate_visualizations stable_argsort_desc self)) /\
  map fst (take order qty) = ["Laptop"; "Mouse"] /\
  map fst (take order qty) = map fst (take order rev) /\
  StronglySorted (fun a b => snd b <= snd a) (take order rev).
Proof.
  intros self qty rev order.
  assert (In (Savefig "screenshots/chart_product_performance.png"
                (BarPair (take order qty) (take order rev)))
             (stdout (generate_visualizations stable_argsort_desc self))) as Hin
    by (right; right; left; reflexivity).
  split; [reflexivity |]. split; [exact Hin |]. split; [reflexivity |].
  destruct (product_chart_panels_line_up stable_argsort_desc
              stable_argsort_desc_perm stable_argsort_desc_sorted
              self example_table (take order qty) (take order rev) eq_refl Hin)
    as (Hfst & _ & _ & Hsorted).
  split; assumption.
Defined.


Lemma main_on_a_good_file_witness :
  let run_main := main (file_with example_table) iso_parse_datetime
                       stable_argsort_desc example_now in
  file_with example_table "sales_data.csv" = Ok example_table /\
  forallb (date_readable iso_parse_datetime) (map Date (rows example_table))
  = true /\
  outcome run_main = Ok tt /\
  files_written (stdout run_main)
  = ["screenshots/chart_product_performance.png";
     "screenshots/chart_regional_sales.png";
     "screenshots/chart_sales_trend.png";
     "analysis_report.md"].
Proof.
  intros run_main. split; [reflexivity |]. split; [reflexivity |].
  apply (main_on_a_good_file (file_with example_table) iso_parse_datetime
           stable_argsort_desc stable_argsort_desc_perm example_now
           example_table eq_refl eq_refl).
  - eexists. split; [left; reflexivity | reflexivity].
  - eexists. split; [left; reflexivity | discriminate].
Defined.

Lemma main_on_an_unreadable_date_witness :
  let run_main := main (file_with bad_date_table) iso_parse_datetime
                       stable_argsort_desc example_now in
  file_with bad_date_table "sales_data.csv" = Ok bad_date_table /\
  forallb (date_readable iso_parse_datetime) (map Date (rows bad_date_table))
  = false /\
  outcome run_main = Raise ValueError /\
  files_written (stdout run_main) = [].
Proof.
  intros run_main. split; [reflexivity |]. split; [reflexivity |].
  exact (main_on_an_unreadable_date (file_with bad_date_table)
           iso_parse_datetime stable_argsort_desc example_now bad_date_table
           eq_refl eq_refl).
Defined.

Lemma report_carries_the_metrics_witness :
  let self0 := analyzer_of example_table in
  let self := analyzer_after (outcome (clean_data iso_parse_datetime self0)) self0 in
  let r := outcome (calculate_metrics stable_argsort_desc self) in
  let self' := analyzer_after r self in
  exists rep,
    r = Ok (metrics self', self') /\
    outcome (generate_report example_now self') = Ok rep /\
    metrics self' !! "total_sales" = Some (MScalar (rep_total_revenue rep)) /\
    metrics self' !! "best_product" = Some (rep_best_product rep) /\
    rep_records rep = 4%nat /\
    rep_generated_on rep = example_now.
Proof.
  intros self0 self r self'.
  assert (r = Ok (metrics self', self')) as H1 by run.
  assert (exists rep, outcome (generate_report example_now self') = Ok rep)
    as (rep & H2) by (eexists; run).
  exists rep. split; [exact H1 |]. split; [exact H2 |].
  destruct (report_carries_the_metrics stable_argsort_desc example_now
              self (metrics self') self' rep H1 H2)
    as (Ht & _ & Hb & _ & _ & _ & Hn & Hnow).
  repeat split; assumption.
Defined.
